(** * Drag To Scroll: a shallow embedding of [main.ts] and its properties

    The plugin class [DragToScrollPlugin] (the version with settings and
    inertia) is embedded as pure functions over an explicit state.  The
    state holds the fields of the plugin instance together with the part
    of the browser the plugin talks to: the list of animation-frame
    callbacks that are scheduled and the counter the browser draws the
    next handle from.  Calls on DOM objects ([preventDefault], [scrollBy],
    [classList.add], ...) are returned by each handler as a list, in the
    order the handler makes them.

    JavaScript numbers are modelled as exact rationals ([Q]): rounding,
    infinities and NaN of IEEE doubles are outside this model.  Mouse
    buttons and animation-frame handles are integers ([Z]).  Module
    [Loose] embeds the release and the inertia engine a second time, over
    numbers with NaN and the infinities, for settings that were stored
    with a friction that is no number. *)

From Stdlib Require Import ZArith QArith Qabs Qpower Qround Lqa Bool List Lia.
From stdpp Require Import base gmap strings.
Import ListNotations.

(** ** Settings *)

(** [modifierKey: 'none' | 'ctrl' | 'shift' | 'alt'] *)
Inductive ModifierKey : Set :=
| ModNone
| ModCtrl
| ModShift
| ModAlt.

Definition ModifierKey_eqb (a b : ModifierKey) : bool :=
  match a, b with
  | ModNone, ModNone | ModCtrl, ModCtrl
  | ModShift, ModShift | ModAlt, ModAlt => true
  | _, _ => false
  end.

(** [interface DragToScrollSettings] *)
Record DragToScrollSettings : Set := mkSettings {
  mouseButton : Z;
  modifierKey : ModifierKey;
  friction : Q
}.

Definition DEFAULT_SETTINGS : DragToScrollSettings :=
  {| mouseButton := 2; modifierKey := ModNone; friction := (92 # 100)%Q |}.

(** ** The environment of the plugin *)

(** A DOM element is only ever compared and scrolled: an identifier. *)
Definition Element : Set := nat.

(** [view.getMode()]; the source keeps a fallback for anything that is
    neither ['source'] nor ['preview']. *)
Inductive ViewMode : Set :=
| ModeSource
| ModePreview
| ModeOther.

(** The active Markdown view: its mode and what [containerEl.querySelector]
    finds for the two selectors. *)
Record MarkdownView : Set := mkView {
  getMode : ViewMode;
  query_cm_scroller : option Element;
  query_markdown_preview_view : option Element
}.

(** [app.workspace.getActiveViewOfType(MarkdownView)], [None] for [null]. *)
Definition Workspace : Set := option MarkdownView.

(** A [MouseEvent]: the fields the handlers read, and [metaKey], the
    fourth modifier flag of the DOM event, which they never read.
    [inLeafContent] is whether
    [evt.target.closest('.workspace-leaf-content')] is non-null. *)
Record MouseEvent : Set := mkMouseEvent {
  button : Z;
  clientY : Q;
  ctrlKey : bool;
  altKey : bool;
  shiftKey : bool;
  metaKey : bool;
  inLeafContent : bool
}.

(** An event with the Meta key up. *)
Definition mkEvent (button : Z) (clientY : Q)
    (ctrlKey altKey shiftKey inLeafContent : bool) : MouseEvent :=
  mkMouseEvent button clientY ctrlKey altKey shiftKey false inLeafContent.

(** The same event with the Meta key as given. *)
Definition withMeta (held : bool) (evt : MouseEvent) : MouseEvent :=
  mkMouseEvent (button evt) (clientY evt) (ctrlKey evt) (altKey evt)
               (shiftKey evt) held (inLeafContent evt).

(** Calls the handlers make on the event, the scroll target and
    [document.body.classList]. *)
Inductive DomCall : Set :=
| PreventDefault
| StopImmediatePropagation
| ScrollBy (el : Element) (dy : Q)
| ClassListAdd
| ClassListRemove.

(** ** State *)

Record State : Set := mkState {
  settings : DragToScrollSettings;
  isDragging : bool;
  startY : Q;
  didDrag : bool;
  lastVelocityY : Q;
  animationFrameId : option Z;
  (* browser side *)
  pendingFrames : list Z;
  nextFrameId : Z
}.

Definition set_settings (x : DragToScrollSettings) (s : State) : State :=
  mkState x (isDragging s) (startY s) (didDrag s) (lastVelocityY s)
          (animationFrameId s) (pendingFrames s) (nextFrameId s).
Definition set_isDragging (x : bool) (s : State) : State :=
  mkState (settings s) x (startY s) (didDrag s) (lastVelocityY s)
          (animationFrameId s) (pendingFrames s) (nextFrameId s).
Definition set_startY (x : Q) (s : State) : State :=
  mkState (settings s) (isDragging s) x (didDrag s) (lastVelocityY s)
          (animationFrameId s) (pendingFrames s) (nextFrameId s).
Definition set_didDrag (x : bool) (s : State) : State :=
  mkState (settings s) (isDragging s) (startY s) x (lastVelocityY s)
          (animationFrameId s) (pendingFrames s) (nextFrameId s).
Definition set_lastVelocityY (x : Q) (s : State) : State :=
  mkState (settings s) (isDragging s) (startY s) (didDrag s) x
          (animationFrameId s) (pendingFrames s) (nextFrameId s).
Definition set_animationFrameId (x : option Z) (s : State) : State :=
  mkState (settings s) (isDragging s) (startY s) (didDrag s) (lastVelocityY s)
          x (pendingFrames s) (nextFrameId s).
Definition set_pendingFrames (x : list Z) (s : State) : State :=
  mkState (settings s) (isDragging s) (startY s) (didDrag s) (lastVelocityY s)
          (animationFrameId s) x (nextFrameId s).
Definition set_nextFrameId (x : Z) (s : State) : State :=
  mkState (settings s) (isDragging s) (startY s) (didDrag s) (lastVelocityY s)
          (animationFrameId s) (pendingFrames s) x.

(** The field initialisers of the class, with the settings [onload] has
    loaded; the browser hands out positive handles. *)
Definition initial (cfg : DragToScrollSettings) : State :=
  {| settings := cfg; isDragging := false; startY := 0%Q; didDrag := false;
     lastVelocityY := 0%Q; animationFrameId := None;
     pendingFrames := []; nextFrameId := 1 |}.

(** ** Numbers *)

(** [a < b] on numbers. *)
Definition Qltb (a b : Q) : bool := negb (Qle_bool b a).

Definition DRAG_THRESHOLD : Q := 5%Q.

(** ** The frame scheduler *)

(** [requestAnimationFrame(cb)]: a new handle, appended to the callbacks
    of the next frame. *)
Definition requestAnimationFrame (s : State) : Z * State :=
  let h := nextFrameId s in
  (h, set_nextFrameId (h + 1) (set_pendingFrames (pendingFrames s ++ [h]) s)).

(** [cancelAnimationFrame(h)]: an unknown handle is ignored. *)
Definition cancelAnimationFrame (h : Z) (s : State) : State :=
  set_pendingFrames (List.filter (fun h' => negb (h' =? h)%Z) (pendingFrames s)) s.

(** ** The plugin *)

Definition getScrollableElement (app : Workspace) : option Element :=
  match app with
  | None => None
  | Some view =>
      match getMode view with
      | ModeSource => query_cm_scroller view
      | ModePreview => query_markdown_preview_view view
      | ModeOther => None
      end
  end.

(** [if (this.animationFrameId)] tests truthiness: [null] and the number
    [0] are falsy, hence the test on the handle below. *)
Definition stopInertiaScroll (s : State) : State :=
  let s1 :=
    match animationFrameId s with
    | Some h =>
        if negb (h =? 0)%Z
        then set_animationFrameId None (cancelAnimationFrame h s)
        else s
    | None => s
    end in
  set_lastVelocityY 0%Q s1.

Definition startInertiaScroll (s : State) : State :=
  let s1 :=
    match animationFrameId s with
    | Some h => if negb (h =? 0)%Z then cancelAnimationFrame h s else s
    | None => s
    end in
  let '(h', s2) := requestAnimationFrame s1 in
  set_animationFrameId (Some h') s2.

Definition inertiaStep (app : Workspace) (s : State) : State * list DomCall :=
  match getScrollableElement app with
  | None => (stopInertiaScroll s, [])
  | Some scrollableEl =>
      if Qltb (Qabs (lastVelocityY s)) 1%Q
      then (stopInertiaScroll s, [])
      else
        let s1 := set_lastVelocityY (lastVelocityY s * friction (settings s))%Q s in
        let '(h, s2) := requestAnimationFrame s1 in
        (set_animationFrameId (Some h) s2,
         [ScrollBy scrollableEl (lastVelocityY s)])
  end.

(** The guard on the modifier keys in [handleMouseDown]: [true] when the
    handler returns because of it. *)
Definition modifierRejects (cfg : DragToScrollSettings) (evt : MouseEvent) : bool :=
  let mod_ := modifierKey cfg in
  let isModKeyPressed := ctrlKey evt || altKey evt || shiftKey evt in
  (ModifierKey_eqb mod_ ModCtrl && negb (ctrlKey evt))
  || (ModifierKey_eqb mod_ ModShift && negb (shiftKey evt))
  || (ModifierKey_eqb mod_ ModAlt && negb (altKey evt))
  || (ModifierKey_eqb mod_ ModNone && isModKeyPressed).

Definition handleMouseDown (evt : MouseEvent) (app : Workspace) (s : State)
  : State * list DomCall :=
  if negb (button evt =? mouseButton (settings s))%Z then (s, [])
  else if modifierRejects (settings s) evt then (s, [])
  else
    let s1 := stopInertiaScroll s in
    if negb (inLeafContent evt) then (s1, [])
    else
      match getScrollableElement app with
      | None => (s1, [])
      | Some _ =>
          (set_lastVelocityY 0%Q
             (set_didDrag false
                (set_startY (clientY evt)
                   (set_isDragging true s1))),
           [PreventDefault])
      end.

Definition handleMouseMove (evt : MouseEvent) (app : Workspace) (s : State)
  : State * list DomCall :=
  if negb (isDragging s) then (s, [])
  else
    match getScrollableElement app with
    | None => (s, [])
    | Some scrollableEl =>
        let '(s1, c1) :=
          if negb (didDrag s)
          then
            if Qltb DRAG_THRESHOLD (Qabs (clientY evt - startY s)%Q)
            then (set_didDrag true s, [ClassListAdd])
            else (s, [])
          else (s, []) in
        if didDrag s1
        then
          let deltaY := (clientY evt - startY s1)%Q in
          let scrollAmount := (- deltaY)%Q in
          (set_startY (clientY evt) (set_lastVelocityY scrollAmount s1),
           c1 ++ [ScrollBy scrollableEl scrollAmount])
        else (s1, c1)
    end.

Definition handleMouseUp (evt : MouseEvent) (s : State) : State * list DomCall :=
  if negb (button evt =? mouseButton (settings s))%Z || negb (isDragging s)
  then (s, [])
  else
    let s1 := set_isDragging false s in
    if didDrag s1
    then (startInertiaScroll s1, [ClassListRemove])
    else (s1, []).

Definition handleContextMenu (evt : MouseEvent) (s : State) : State * list DomCall :=
  if didDrag s
  then
    (set_didDrag false s,
     if (mouseButton (settings s) =? 2)%Z
     then [PreventDefault; StopImmediatePropagation]
     else [])
  else (s, []).

(** The browser runs the callback registered under handle [h]: the handle
    leaves the list of scheduled callbacks, then [inertiaStep] runs.  A
    handle that is not scheduled (cancelled, or never given out) runs
    nothing. *)
Definition fireFrame (h : Z) (app : Workspace) (s : State) : State * list DomCall :=
  if existsb (Z.eqb h) (pendingFrames s)
  then inertiaStep app (cancelAnimationFrame h s)
  else (s, []).

(** One display frame: the oldest scheduled callback, if any, runs. *)
Definition animationFrame (app : Workspace) (s : State) : State * list DomCall :=
  match pendingFrames s with
  | [] => (s, [])
  | h :: _ => fireFrame h app s
  end.

(** ** Event sequences *)

(** What the host delivers to the plugin: the four DOM events it
    registers for, an animation frame, and the three [onChange] callbacks
    of the settings tab. *)
Inductive Event : Set :=
| EMouseDown (evt : MouseEvent) (app : Workspace)
| EMouseMove (evt : MouseEvent) (app : Workspace)
| EMouseUp (evt : MouseEvent)
| EContextMenu (evt : MouseEvent)
| EFrame (h : Z) (app : Workspace)
| ESetMouseButton (b : Z)
| ESetModifierKey (m : ModifierKey)
| ESetFriction (f : Q).

Definition dispatch (e : Event) (s : State) : State * list DomCall :=
  match e with
  | EMouseDown evt app => handleMouseDown evt app s
  | EMouseMove evt app => handleMouseMove evt app s
  | EMouseUp evt => handleMouseUp evt s
  | EContextMenu evt => handleContextMenu evt s
  | EFrame h app => fireFrame h app s
  | ESetMouseButton b =>
      (set_settings (mkSettings b (modifierKey (settings s)) (friction (settings s))) s, [])
  | ESetModifierKey m =>
      (set_settings (mkSettings (mouseButton (settings s)) m (friction (settings s))) s, [])
  | ESetFriction f =>
      (set_settings (mkSettings (mouseButton (settings s)) (modifierKey (settings s)) f) s, [])
  end.

(** Events are processed one after the other, in arrival order. *)
Fixpoint run (es : list Event) (s : State) : State * list DomCall :=
  match es with
  | [] => (s, [])
  | e :: es' =>
      let '(s1, c1) := dispatch e s in
      let '(s2, c2) := run es' s1 in
      (s2, c1 ++ c2)
  end.

(** A stretch of pointer moves, each with the workspace as it is then. *)
Definition moves (ms : list (MouseEvent * Workspace)) : list Event :=
  map (fun m => EMouseMove (fst m) (snd m)) ms.

(** [n] display frames in a row, each with the workspace as it is then. *)
Fixpoint inertiaRun (apps : list Workspace) (s : State) : State * list DomCall :=
  match apps with
  | [] => (s, [])
  | app :: apps' =>
      let '(s1, c1) := animationFrame app s in
      let '(s2, c2) := inertiaRun apps' s1 in
      (s2, c1 ++ c2)
  end.

(** ** Predicates on events and calls *)

(** All four guards of [handleMouseDown] let the event through. *)
Definition arms (evt : MouseEvent) (app : Workspace) (s : State) : bool :=
  (button evt =? mouseButton (settings s))%Z
  && negb (modifierRejects (settings s) evt)
  && inLeafContent evt
  && match getScrollableElement app with Some _ => true | None => false end.

(** The move finds a scroll target and is further than the threshold from
    the anchor [a]. *)
Definition crosses (a : Q) (m : MouseEvent * Workspace) : bool :=
  match getScrollableElement (snd m) with
  | Some _ => Qltb DRAG_THRESHOLD (Qabs (clientY (fst m) - a)%Q)
  | None => false
  end.

Definition isClassListAdd (c : DomCall) : bool :=
  match c with ClassListAdd => true | _ => false end.

(** Transitions to dragging among the calls: each one adds the class
    [is-dragging-to-scroll] to the body. *)
Definition transitions (cs : list DomCall) : nat :=
  length (List.filter isClassListAdd cs).

(** The deltas of the [scrollBy] calls, in order. *)
Fixpoint scrollDeltas (cs : list DomCall) : list Q :=
  match cs with
  | [] => []
  | ScrollBy _ dy :: cs' => dy :: scrollDeltas cs'
  | _ :: cs' => scrollDeltas cs'
  end.

(** A run is active: exactly the callback the plugin remembers is
    scheduled. *)
Definition running (s : State) : Prop :=
  exists h, h <> 0%Z /\ animationFrameId s = Some h /\ pendingFrames s = [h].

(** Handles are positive, and what the plugin remembers covers everything
    that is scheduled. *)
Definition frames_ok (s : State) : Prop :=
  (0 < nextFrameId s)%Z /\
  animationFrameId s <> Some 0%Z /\
  (pendingFrames s = [] \/ running s).

(** ** Settings as stored *)

(** A JSON value, as [loadData] returns them. *)
Inductive JsVal : Set :=
| JNull
| JBool (b : bool)
| JNum (q : Q)
| JStr (s : string).

(** [Object.assign(target, ...sources)]: own properties of each source
    are written over the target in turn; [null] sources are skipped. *)
Definition Object_assign (target : gmap string JsVal)
    (sources : list (option (gmap string JsVal))) : gmap string JsVal :=
  fold_left (fun acc src =>
               match src with
               | Some o => o ∪ acc
               | None => acc
               end) sources target.

Definition ModifierKey_name (m : ModifierKey) : string :=
  match m with
  | ModNone => "none"
  | ModCtrl => "ctrl"
  | ModShift => "shift"
  | ModAlt => "alt"
  end.

(** A settings record as a JavaScript object. *)
Definition toObject (cfg : DragToScrollSettings) : gmap string JsVal :=
  <["mouseButton" := JNum (inject_Z (mouseButton cfg))]>
    (<["modifierKey" := JStr (ModifierKey_name (modifierKey cfg))]>
       (<["friction" := JNum (friction cfg)]> ∅)).

(** [loadSettings], given what [loadData()] resolves to ([None] for
    [null]: nothing stored yet). *)
Definition loadSettings (data : option (gmap string JsVal)) : gmap string JsVal :=
  Object_assign ∅ [Some (toObject DEFAULT_SETTINGS); data].

(** A stored value has the type [DragToScrollSettings] declares for its
    field. *)
Definition conforms (field : string) (v : JsVal) : bool :=
  if String.eqb field "mouseButton" then
    match v with JNum _ => true | _ => false end
  else if String.eqb field "modifierKey" then
    match v with
    | JStr m => existsb (String.eqb m) ["none"; "ctrl"; "shift"; "alt"]
    | _ => false
    end
  else if String.eqb field "friction" then
    match v with JNum _ => true | _ => false end
  else true.

(** ** The modifier condition *)

(** The condition as the handler applies it, in the shape the
    specification gives it: with [none] none of Ctrl, Alt and Shift may be
    held; otherwise the configured key must be held and the others are not
    looked at.  The Meta key is not looked at in any case. *)
Definition spec_modifierSatisfied (m : ModifierKey) (evt : MouseEvent) : bool :=
  match m with
  | ModNone => negb (ctrlKey evt) && negb (altKey evt) && negb (shiftKey evt)
  | ModCtrl => ctrlKey evt
  | ModShift => shiftKey evt
  | ModAlt => altKey evt
  end.

(** Follows the specification to the letter: with [none] no modifier key
    at all may be held, the Meta key included; otherwise the configured
    key must be held and the others are not looked at. *)
Definition spec_modifierExact (m : ModifierKey) (evt : MouseEvent) : bool :=
  match m with
  | ModNone =>
      negb (ctrlKey evt) && negb (altKey evt) && negb (shiftKey evt)
      && negb (metaKey evt)
  | ModCtrl => ctrlKey evt
  | ModShift => shiftKey evt
  | ModAlt => altKey evt
  end.

(** ** Unloading and saving *)

(** [onunload]: the class is taken off the body, then the run is
    stopped. *)
Definition onunload (s : State) : State * list DomCall :=
  (stopInertiaScroll s, [ClassListRemove]).

(** [saveSettings]: what [saveData(this.settings)] leaves for the next
    [loadData()]. *)
Definition saveSettings (cfg : DragToScrollSettings)
  : option (gmap string JsVal) :=
  Some (toObject cfg).

(** ** Measures on calls and runs *)

Fixpoint Qsum (l : list Q) : Q :=
  match l with
  | [] => 0%Q
  | x :: l' => (x + Qsum l')%Q
  end.

(** A number of frames after which a glide of seed [v] has ended, for a
    friction of magnitude at most 0.99 (the upper limit of the slider). *)
Definition glideBound (v : Q) : nat :=
  Z.to_nat (Qceiling (99 * Qabs v)%Q).

(** While a gesture is under way nothing is scheduled. *)
Definition drag_excludes_glide (s : State) : Prop :=
  isDragging s = true -> pendingFrames s = [].

(** The element an event may scroll: what a pointer move or a frame
    resolves from the workspace as it is when the event is handled.  No
    other event has one. *)
Definition eventTarget (e : Event) : option Element :=
  match e with
  | EMouseMove _ app | EFrame _ app => getScrollableElement app
  | _ => None
  end.

(** The events of a sequence, each with the calls made while it was
    handled. *)
Fixpoint callsByEvent (es : list Event) (s : State)
  : list (Event * list DomCall) :=
  match es with
  | [] => []
  | e :: es' =>
      let '(s1, c1) := dispatch e s in
      (e, c1) :: callsByEvent es' s1
  end.

(** Mouse traffic that is none of the plugin's business while no gesture
    is under way: moves, releases, and presses of a button other than
    [trigger]. *)
Definition foreign (trigger : Z) (e : Event) : bool :=
  match e with
  | EMouseDown evt _ => negb (button evt =? trigger)%Z
  | EMouseMove _ _ => true
  | EMouseUp _ => true
  | _ => false
  end.

(** ** The plugin before settings and inertia *)

(** The first [DragToScrollPlugin] of [main.ts]: right button only, no
    modifier test, no glide; the mode is shown through the cursor. *)
Module Legacy.

Record State : Set := mkState {
  isDragging : bool;
  startY : Q;
  didDrag : bool
}.

Inductive Call : Set :=
| PreventDefault
| StopImmediatePropagation
| ScrollBy (el : Element) (dy : Q)
| SetCursor (value : string).

Definition DRAG_THRESHOLD : Q := 5%Q.

Definition handleMouseDown (evt : MouseEvent) (app : Workspace) (s : State)
  : State * list Call :=
  if negb (button evt =? 2)%Z then (s, [])
  else if negb (inLeafContent evt) then (s, [])
  else
    match getScrollableElement app with
    | None => (s, [])
    | Some _ => (mkState true (clientY evt) false, [PreventDefault])
    end.

Definition handleMouseMove (evt : MouseEvent) (app : Workspace) (s : State)
  : State * list Call :=
  if negb (isDragging s) then (s, [])
  else
    match getScrollableElement app with
    | None => (s, [])
    | Some scrollableEl =>
        let '(s1, c1) :=
          if negb (didDrag s)
          then
            if Qltb DRAG_THRESHOLD (Qabs (clientY evt - startY s)%Q)
            then (mkState (isDragging s) (startY s) true, [SetCursor "grabbing"])
            else (s, [])
          else (s, []) in
        if didDrag s1
        then
          let deltaY := (clientY evt - startY s1)%Q in
          (mkState (isDragging s1) (clientY evt) (didDrag s1),
           c1 ++ [ScrollBy scrollableEl (- deltaY)%Q])
        else (s1, c1)
    end.

Definition handleMouseUp (evt : MouseEvent) (s : State) : State * list Call :=
  if negb (button evt =? 2)%Z || negb (isDragging s) then (s, [])
  else
    let s1 := mkState false (startY s) (didDrag s) in
    (s1, if didDrag s1 then [SetCursor "default"] else []).

Definition handleContextMenu (evt : MouseEvent) (s : State) : State * list Call :=
  if didDrag s
  then (mkState (isDragging s) (startY s) false,
        [PreventDefault; StopImmediatePropagation])
  else (s, []).

Definition onunload (s : State) : State * list Call :=
  (s, [SetCursor "default"]).

(** The four DOM events it registers for. *)
Inductive MouseInput : Set :=
| Down (evt : MouseEvent) (app : Workspace)
| Move (evt : MouseEvent) (app : Workspace)
| Up (evt : MouseEvent)
| Menu (evt : MouseEvent).

Definition dispatch (i : MouseInput) (s : State) : State * list Call :=
  match i with
  | Down evt app => handleMouseDown evt app s
  | Move evt app => handleMouseMove evt app s
  | Up evt => handleMouseUp evt s
  | Menu evt => handleContextMenu evt s
  end.

Fixpoint run (ins : list MouseInput) (s : State) : State * list Call :=
  match ins with
  | [] => (s, [])
  | i :: ins' =>
      let '(s1, c1) := dispatch i s in
      let '(s2, c2) := run ins' s1 in
      (s2, c1 ++ c2)
  end.

End Legacy.

(** The same input, as the later plugin receives it. *)
Definition toEvent (i : Legacy.MouseInput) : Event :=
  match i with
  | Legacy.Down evt app => EMouseDown evt app
  | Legacy.Move evt app => EMouseMove evt app
  | Legacy.Up evt => EMouseUp evt
  | Legacy.Menu evt => EContextMenu evt
  end.

(** The fields the two plugins share. *)
Definition gestureFields (s : State) : Legacy.State :=
  Legacy.mkState (isDragging s) (startY s) (didDrag s).

(** The later plugin marks the mode with a class where the first one set
    the cursor. *)
Definition legacyCall (c : DomCall) : Legacy.Call :=
  match c with
  | PreventDefault => Legacy.PreventDefault
  | StopImmediatePropagation => Legacy.StopImmediatePropagation
  | ScrollBy el dy => Legacy.ScrollBy el dy
  | ClassListAdd => Legacy.SetCursor "grabbing"
  | ClassListRemove => Legacy.SetCursor "default"
  end.

(** No modifier key is held at a press. *)
Definition unmodified (i : Legacy.MouseInput) : bool :=
  match i with
  | Legacy.Down evt _ => negb (ctrlKey evt || altKey evt || shiftKey evt)
  | _ => true
  end.

(** ** The inertia engine over settings as they are loaded *)

(** [loadSettings] keeps whatever is stored, so [settings.friction] need
    not be a number.  Its one use is the multiplication in [inertiaStep],
    which makes a number of it first.  Here the engine is embedded over
    numbers that include NaN and the infinities, with the friction given
    as that number. *)
Module Loose.

(** A JavaScript number: a finite one (exact), an infinity, or NaN. *)
Inductive Number : Set :=
| Fin (q : Q)
| Inf (negative : bool)
| NaN.

(** [a * b]: NaN is contagious, and zero times an infinity is NaN. *)
Definition mul (a b : Number) : Number :=
  match a, b with
  | NaN, _ | _, NaN => NaN
  | Fin x, Fin y => Fin (x * y)%Q
  | Fin x, Inf n | Inf n, Fin x =>
      if Qeq_bool x 0 then NaN else Inf (xorb n (Qltb x 0))
  | Inf n, Inf m => Inf (xorb n m)
  end.

(** [Math.abs]. *)
Definition abs (a : Number) : Number :=
  match a with
  | Fin x => Fin (Qabs x)
  | Inf _ => Inf false
  | NaN => NaN
  end.

(** [a < b]: false as soon as one side is NaN. *)
Definition ltb (a b : Number) : bool :=
  match a, b with
  | Fin x, Fin y => Qltb x y
  | Fin _, Inf n => negb n
  | Inf n, Fin _ => n
  | Inf n, Inf m => n && negb m
  | _, _ => false
  end.





(** The fields the release and the engine work with.  [friction] is the
    number [settings.friction] is taken for. *)
Record State : Set := mkState {
  mouseButton : Z;
  friction : Number;
  isDragging : bool;
  didDrag : bool;
  lastVelocityY : Number;
  animationFrameId : option Z;
  pendingFrames : list Z;
  nextFrameId : Z
}.

Inductive Call : Set :=
| PreventDefault
| StopImmediatePropagation
| ScrollBy (el : Element) (dy : Number)
| ClassListAdd
| ClassListRemove.

Definition requestAnimationFrame (s : State) : Z * State :=
  let h := nextFrameId s in
  (h, mkState (mouseButton s) (friction s) (isDragging s) (didDrag s)
              (lastVelocityY s) (animationFrameId s)
              (pendingFrames s ++ [h]) (h + 1)).

Definition cancelAnimationFrame (h : Z) (s : State) : State :=
  mkState (mouseButton s) (friction s) (isDragging s) (didDrag s)
          (lastVelocityY s) (animationFrameId s)
          (List.filter (fun h' => negb (h' =? h)%Z) (pendingFrames s))
          (nextFrameId s).

Definition set_animationFrameId (x : option Z) (s : State) : State :=
  mkState (mouseButton s) (friction s) (isDragging s) (didDrag s)
          (lastVelocityY s) x (pendingFrames s) (nextFrameId s).

Definition set_lastVelocityY (x : Number) (s : State) : State :=
  mkState (mouseButton s) (friction s) (isDragging s) (didDrag s)
          x (animationFrameId s) (pendingFrames s) (nextFrameId s).

Definition set_isDragging (x : bool) (s : State) : State :=
  mkState (mouseButton s) (friction s) x (didDrag s)
          (lastVelocityY s) (animationFrameId s) (pendingFrames s)
          (nextFrameId s).

Definition stopInertiaScroll (s : State) : State :=
  let s1 :=
    match animationFrameId s with
    | Some h =>
        if negb (h =? 0)%Z
        then set_animationFrameId None (cancelAnimationFrame h s)
        else s
    | None => s
    end in
  set_lastVelocityY (Fin 0) s1.

Definition startInertiaScroll (s : State) : State :=
  let s1 :=
    match animationFrameId s with
    | Some h => if negb (h =? 0)%Z then cancelAnimationFrame h s else s
    | None => s
    end in
  let '(h', s2) := requestAnimationFrame s1 in
  set_animationFrameId (Some h') s2.

Definition inertiaStep (app : Workspace) (s : State) : State * list Call :=
  match getScrollableElement app with
  | None => (stopInertiaScroll s, [])
  | Some scrollableEl =>
      if ltb (abs (lastVelocityY s)) (Fin 1)
      then (stopInertiaScroll s, [])
      else
        let s1 := set_lastVelocityY (mul (lastVelocityY s) (friction s)) s in
        let '(h, s2) := requestAnimationFrame s1 in
        (set_animationFrameId (Some h) s2,
         [ScrollBy scrollableEl (lastVelocityY s)])
  end.

Definition handleMouseUp (evt : MouseEvent) (s : State) : State * list Call :=
  if negb (button evt =? mouseButton s)%Z || negb (isDragging s)
  then (s, [])
  else
    let s1 := set_isDragging false s in
    if didDrag s1
    then (startInertiaScroll s1, [ClassListRemove])
    else (s1, []).

Definition fireFrame (h : Z) (app : Workspace) (s : State) : State * list Call :=
  if existsb (Z.eqb h) (pendingFrames s)
  then inertiaStep app (cancelAnimationFrame h s)
  else (s, []).

Definition animationFrame (app : Workspace) (s : State) : State * list Call :=
  match pendingFrames s with
  | [] => (s, [])
  | h :: _ => fireFrame h app s
  end.

Fixpoint inertiaRun (apps : list Workspace) (s : State) : State * list Call :=
  match apps with
  | [] => (s, [])
  | app :: apps' =>
      let '(s1, c1) := animationFrame app s in
      let '(s2, c2) := inertiaRun apps' s1 in
      (s2, c1 ++ c2)
  end.

Definition running (s : State) : Prop :=
  exists h, h <> 0%Z /\ animationFrameId s = Some h /\ pendingFrames s = [h].

Definition frames_ok (s : State) : Prop :=
  (0 < nextFrameId s)%Z /\
  animationFrameId s <> Some 0%Z /\
  (pendingFrames s = [] \/ running s).

End Loose.



(** ** Sample inputs *)

(** A note open in source mode (scroller 1) and one in reading mode
    (scroller 2). *)
Definition sourceView : Workspace :=
  Some (mkView ModeSource (Some 1%nat) (Some 2%nat)).
Definition readingView : Workspace :=
  Some (mkView ModePreview None (Some 2%nat)).

(** Right button, no modifier key, inside the note, at height [y]. *)
Definition rightButtonAt (y : Q) : MouseEvent :=
  mkEvent 2 y false false false true.

(** The same, on an element outside any note. *)
Definition rightButtonOutsideAt (y : Q) : MouseEvent :=
  mkEvent 2 y false false false false.

(** Right button inside the note with the Meta key held and no other
    modifier. *)
Definition rightButtonWithMetaAt (y : Q) : MouseEvent :=
  withMeta true (rightButtonAt y).

(** A glide in progress with velocity [v]: callback 1 is scheduled. *)
Definition gliding (cfg : DragToScrollSettings) (v : Q) : State :=
  {| settings := cfg; isDragging := false; startY := 0%Q; didDrag := false;
     lastVelocityY := v; animationFrameId := Some 1%Z;
     pendingFrames := [1%Z]; nextFrameId := 2 |}.

(** A confirmed drag in progress, anchored at [y]. *)
Definition draggingAt (cfg : DragToScrollSettings) (y : Q) : State :=
  {| settings := cfg; isDragging := true; startY := y; didDrag := true;
     lastVelocityY := 0%Q; animationFrameId := None;
     pendingFrames := []; nextFrameId := 1 |}.

(** Press at 100, drag to 90, release: a glide of velocity 10 begins. *)
Definition dragAndRelease : list Event :=
  [EMouseDown (rightButtonAt 100) sourceView;
   EMouseMove (rightButtonAt 90) sourceView;
   EMouseUp (rightButtonAt 90)].

(** Press at 100, drag to 90, then to 85, release, two frames. *)
Definition dragTwiceAndGlide : list Event :=
  [EMouseDown (rightButtonAt 100) sourceView;
   EMouseMove (rightButtonAt 90) sourceView;
   EMouseMove (rightButtonAt 85) sourceView;
   EMouseUp (rightButtonAt 85);
   EFrame 1 sourceView;
   EFrame 2 sourceView].

(** A stored record whose [friction] is a string. *)
Definition corruptedData : gmap string JsVal :=
  {["friction" := JStr "fast"]}.


Definition halving : DragToScrollSettings :=
  {| mouseButton := 2; modifierKey := ModNone; friction := (1 # 2)%Q |}.

Definition withCtrl : DragToScrollSettings :=
  {| mouseButton := 2; modifierKey := ModCtrl; friction := (92 # 100)%Q |}.

(** * Properties *)

(** ** Comparisons on numbers *)

Lemma Qltb_lt (a b : Q) : Qltb a b = true <-> (a < b)%Q.
Proof.
  unfold Qltb. rewrite negb_true_iff, <- not_true_iff_false, Qle_bool_iff.
  split; [apply Qnot_le_lt | apply Qlt_not_le].
Qed.

Lemma Qltb_ge (a b : Q) : Qltb a b = false <-> (b <= a)%Q.
Proof.
  unfold Qltb. rewrite negb_false_iff. apply Qle_bool_iff.
Qed.

(** ** Gesture classifier *)

Section GestureClassifier.

Lemma modifierRejects_spec cfg evt :
  modifierRejects cfg evt = negb (spec_modifierSatisfied (modifierKey cfg) evt).
Proof.
  unfold modifierRejects, spec_modifierSatisfied.
  destruct (modifierKey cfg), (ctrlKey evt), (altKey evt), (shiftKey evt);
    reflexivity.
Qed.

Lemma handleMouseDown_armed evt app s :
  arms evt app s = true ->
  handleMouseDown evt app s =
    (set_lastVelocityY 0%Q
       (set_didDrag false
          (set_startY (clientY evt)
             (set_isDragging true (stopInertiaScroll s)))),
     [PreventDefault]).
Proof.
  unfold arms, handleMouseDown. intros H.
  apply andb_prop in H as [H Ht]. apply andb_prop in H as [H Hl].
  apply andb_prop in H as [Hb Hm].
  rewrite Hb, Hl. apply negb_true_iff in Hm. rewrite Hm. simpl.
  destruct (getScrollableElement app); [reflexivity | discriminate].
Qed.

Lemma handleMouseMove_dragging evt app s el :
  isDragging s = true -> didDrag s = true ->
  getScrollableElement app = Some el ->
  handleMouseMove evt app s =
    (set_startY (clientY evt)
       (set_lastVelocityY (- (clientY evt - startY s))%Q s),
     [ScrollBy el (- (clientY evt - startY s))%Q]).
Proof.
  intros Hd Hg Hel. unfold handleMouseMove.
  rewrite Hd, Hel, Hg. simpl. rewrite Hg. reflexivity.
Qed.

Lemma handleMouseMove_unresolvable evt app s :
  getScrollableElement app = None -> handleMouseMove evt app s = (s, []).
Proof.
  intros Hel. unfold handleMouseMove. rewrite Hel.
  destruct (negb (isDragging s)); reflexivity.
Qed.

End GestureClassifier.

(** ** Inertia engine *)

Section InertiaEngine.

Lemma Qpower_succ_nat (f : Q) (k : nat) :
  (f ^ Z.of_nat (S k) == f * f ^ Z.of_nat k)%Q.
Proof.
  rewrite Nat2Z.inj_succ. unfold Z.succ.
  rewrite Qpower_plus' by lia.
  rewrite Qpower_1_r. apply Qmult_comm.
Qed.

Lemma filter_self_removed (h : Z) :
  List.filter (fun h' => negb (h' =? h)%Z) [h] = [].
Proof. simpl. rewrite Z.eqb_refl. reflexivity. Qed.

(** [stop()] of a run that is active, or of none at all, leaves no
    callback scheduled, no handle and no velocity. *)
Lemma stopInertiaScroll_stops s :
  frames_ok s ->
  let s' := stopInertiaScroll s in
  animationFrameId s' = None /\ pendingFrames s' = [] /\
  lastVelocityY s' = 0%Q /\ nextFrameId s' = nextFrameId s /\
  settings s' = settings s /\ isDragging s' = isDragging s /\
  didDrag s' = didDrag s /\ startY s' = startY s.
Proof.
  intros (Hn & Hz & Hp). unfold stopInertiaScroll.
  destruct Hp as [Hp | (h & Hh & Hid & Hp)].
  - destruct (animationFrameId s) as [h|] eqn:Hid; simpl.
    + destruct (Z.eqb_spec h 0) as [->|Hh]; [congruence|]. simpl.
      rewrite Hp. simpl. tauto.
    + rewrite Hid. tauto.
  - rewrite Hid. destruct (Z.eqb_spec h 0) as [->|_]; [congruence|]. simpl.
    rewrite Hp, filter_self_removed. tauto.
Qed.

Lemma stopInertiaScroll_ok s : frames_ok s -> frames_ok (stopInertiaScroll s).
Proof.
  intros H. destruct (stopInertiaScroll_stops s H) as (Hid & Hp & _ & Hn & _).
  destruct H as (Hpos & _). repeat split.
  - rewrite Hn. exact Hpos.
  - rewrite Hid. discriminate.
  - left. exact Hp.
Qed.

Lemma stopInertiaScroll_idempotent s :
  stopInertiaScroll (stopInertiaScroll s) = stopInertiaScroll s.
Proof.
  unfold stopInertiaScroll.
  destruct (animationFrameId s) as [h|] eqn:Hid; simpl.
  - destruct (Z.eqb_spec h 0) as [->|Hh]; simpl.
    + rewrite Hid. reflexivity.
    + reflexivity.
  - rewrite Hid. reflexivity.
Qed.

(** [start()] leaves exactly the new callback scheduled. *)
Lemma startInertiaScroll_running s :
  frames_ok s ->
  let s' := startInertiaScroll s in
  frames_ok s' /\ running s' /\
  lastVelocityY s' = lastVelocityY s /\ settings s' = settings s /\
  isDragging s' = isDragging s /\ didDrag s' = didDrag s /\
  startY s' = startY s.
Proof.
  intros (Hn & Hz & Hp). unfold startInertiaScroll.
  assert (Hempty :
    pendingFrames
      match animationFrameId s with
      | Some h => if negb (h =? 0)%Z then cancelAnimationFrame h s else s
      | None => s
      end = []).
  { destruct Hp as [Hp | (h & Hh & Hid & Hp)].
    - destruct (animationFrameId s) as [h|]; [|exact Hp].
      destruct (negb (h =? 0)%Z); simpl; [rewrite Hp; reflexivity | exact Hp].
    - rewrite Hid. destruct (Z.eqb_spec h 0) as [->|_]; [congruence|]. simpl.
      rewrite Hp. apply filter_self_removed. }
  assert (Hrest :
    forall t, t = match animationFrameId s with
      | Some h => if negb (h =? 0)%Z then cancelAnimationFrame h s else s
      | None => s
      end ->
    nextFrameId t = nextFrameId s /\ lastVelocityY t = lastVelocityY s /\
    settings t = settings s /\ isDragging t = isDragging s /\
    didDrag t = didDrag s /\ startY t = startY s).
  { intros t ->. destruct (animationFrameId s) as [h|]; [|tauto].
    destruct (negb (h =? 0)%Z); simpl; tauto. }
  specialize (Hrest _ eq_refl).
  destruct Hrest as (Hnx & Hv & Hs & Hd & Hg & Hy).
  assert (Hne : nextFrameId s <> 0%Z) by lia.
  unfold frames_ok, running, requestAnimationFrame. simpl.
  rewrite Hempty, Hnx. simpl.
  repeat split; try assumption; try lia.
  - intros [= E]. lia.
  - right. exists (nextFrameId s). repeat split; assumption.
  - exists (nextFrameId s). repeat split; assumption.
Qed.

(** [stop()] touches nothing but the handle, the scheduler and the
    velocity. *)
Lemma stopInertiaScroll_fields s :
  lastVelocityY (stopInertiaScroll s) = 0%Q /\
  settings (stopInertiaScroll s) = settings s /\
  isDragging (stopInertiaScroll s) = isDragging s /\
  didDrag (stopInertiaScroll s) = didDrag s /\
  startY (stopInertiaScroll s) = startY s /\
  nextFrameId (stopInertiaScroll s) = nextFrameId s.
Proof.
  unfold stopInertiaScroll.
  destruct (animationFrameId s) as [h|]; [|simpl; tauto].
  destruct (negb (h =? 0)%Z); simpl; tauto.
Qed.

(** [start()] touches nothing but the handle and the scheduler. *)
Lemma startInertiaScroll_running_fields s :
  lastVelocityY (startInertiaScroll s) = lastVelocityY s /\
  settings (startInertiaScroll s) = settings s /\
  isDragging (startInertiaScroll s) = isDragging s /\
  didDrag (startInertiaScroll s) = didDrag s /\
  startY (startInertiaScroll s) = startY s.
Proof.
  unfold startInertiaScroll.
  destruct (animationFrameId s) as [h|]; [|simpl; tauto].
  destruct (negb (h =? 0)%Z); simpl; tauto.
Qed.

(** A tick that finds no scroll target or too small a velocity. *)
Lemma inertiaStep_stop app s :
  getScrollableElement app = None \/ (Qabs (lastVelocityY s) < 1)%Q ->
  inertiaStep app s = (stopInertiaScroll s, []).
Proof.
  intros H. unfold inertiaStep.
  destruct (getScrollableElement app) as [el|]; [|reflexivity].
  destruct H as [H|H]; [discriminate|].
  apply Qltb_lt in H. rewrite H. reflexivity.
Qed.

(** A tick that goes on. *)
Lemma inertiaStep_continue app s el :
  getScrollableElement app = Some el ->
  (1 <= Qabs (lastVelocityY s))%Q ->
  inertiaStep app s =
    (set_animationFrameId (Some (nextFrameId s))
       (set_nextFrameId (nextFrameId s + 1)
          (set_pendingFrames (pendingFrames s ++ [nextFrameId s])
             (set_lastVelocityY (lastVelocityY s * friction (settings s))%Q s))),
     [ScrollBy el (lastVelocityY s)]).
Proof.
  intros Hel Hv. unfold inertiaStep. rewrite Hel.
  apply Qltb_ge in Hv. rewrite Hv. reflexivity.
Qed.

(** The frame of an active run is the frame of its callback. *)
Lemma animationFrame_running app s :
  running s ->
  animationFrame app s = inertiaStep app (set_pendingFrames [] s).
Proof.
  intros (h & Hh & Hid & Hp). unfold animationFrame, fireFrame.
  rewrite Hp. simpl. rewrite Z.eqb_refl. simpl.
  unfold cancelAnimationFrame. rewrite Hp, filter_self_removed. reflexivity.
Qed.

Lemma animationFrame_idle app s :
  pendingFrames s = [] -> animationFrame app s = (s, []).
Proof. intros H. unfold animationFrame. rewrite H. reflexivity. Qed.

Lemma inertiaRun_idle apps s :
  pendingFrames s = [] -> inertiaRun apps s = (s, []).
Proof.
  intros H. induction apps as [|app apps IH]; [reflexivity|].
  simpl. rewrite animationFrame_idle by exact H. rewrite IH. reflexivity.
Qed.

Lemma frames_ok_fired s :
  frames_ok s -> running s -> frames_ok (set_pendingFrames [] s).
Proof.
  intros (Hn & Hz & _) _. repeat split; simpl; try assumption. left. reflexivity.
Qed.

(** Terminating frame of an active run. *)
Lemma animationFrame_terminates app s :
  frames_ok s -> running s ->
  getScrollableElement app = None \/ (Qabs (lastVelocityY s) < 1)%Q ->
  let s' := fst (animationFrame app s) in
  snd (animationFrame app s) = [] /\
  animationFrameId s' = None /\ pendingFrames s' = [] /\
  lastVelocityY s' = 0%Q /\ nextFrameId s' = nextFrameId s /\
  isDragging s' = isDragging s /\ didDrag s' = didDrag s /\
  startY s' = startY s /\ settings s' = settings s.
Proof.
  intros Hok Hrun Hstop. rewrite animationFrame_running by exact Hrun.
  rewrite inertiaStep_stop by exact Hstop. simpl.
  pose proof (stopInertiaScroll_stops _ (frames_ok_fired s Hok Hrun)) as H.
  simpl in H. tauto.
Qed.

(** Continuing frame of an active run. *)
Lemma animationFrame_continues app s el :
  frames_ok s -> running s ->
  getScrollableElement app = Some el ->
  (1 <= Qabs (lastVelocityY s))%Q ->
  let s' := fst (animationFrame app s) in
  snd (animationFrame app s) = [ScrollBy el (lastVelocityY s)] /\
  frames_ok s' /\ running s' /\
  lastVelocityY s' = (lastVelocityY s * friction (settings s))%Q /\
  settings s' = settings s /\ isDragging s' = isDragging s /\
  didDrag s' = didDrag s /\ startY s' = startY s.
Proof.
  intros (Hn & Hz & Hp) Hrun Hel Hv.
  rewrite animationFrame_running by exact Hrun.
  rewrite (inertiaStep_continue app _ el) by assumption.
  assert (Hne : nextFrameId s <> 0%Z) by lia.
  unfold frames_ok, running. simpl.
  repeat split; try lia.
  - intros [= E]. lia.
  - right. exists (nextFrameId s). repeat split; assumption.
  - exists (nextFrameId s). repeat split; assumption.
Qed.

End InertiaEngine.

(** ** Geometric decay *)

Section Decay.

Lemma scrollDeltas_app (c1 c2 : list DomCall) :
  scrollDeltas (c1 ++ c2) = scrollDeltas c1 ++ scrollDeltas c2.
Proof.
  induction c1 as [|c c1 IH]; [reflexivity|].
  destruct c; simpl; rewrite IH; reflexivity.
Qed.

(** As long as every tick finds a scroll target and a velocity of
    magnitude at least 1, the run stays active, tick [k] scrolls by
    [v0 * f^k] and the velocity after [n] ticks is [v0 * f^n]. *)
Lemma inertiaRun_geometric (apps : list Workspace) :
  forall s : State,
    frames_ok s -> running s ->
    Forall (fun app => getScrollableElement app <> None) apps ->
    (forall k : nat, (k < length apps)%nat ->
       (1 <= Qabs (lastVelocityY s * friction (settings s) ^ Z.of_nat k))%Q) ->
    frames_ok (fst (inertiaRun apps s)) /\
    running (fst (inertiaRun apps s)) /\
    settings (fst (inertiaRun apps s)) = settings s /\
    (lastVelocityY (fst (inertiaRun apps s)) ==
       lastVelocityY s * friction (settings s) ^ Z.of_nat (length apps))%Q /\
    length (scrollDeltas (snd (inertiaRun apps s))) = length apps /\
    (forall (k : nat) (d : Q),
       nth_error (scrollDeltas (snd (inertiaRun apps s))) k = Some d ->
       (d == lastVelocityY s * friction (settings s) ^ Z.of_nat k)%Q).
Proof.
  induction apps as [|app apps IH]; intros s Hok Hrun Hres Hbig.
  - cbn [inertiaRun fst snd length scrollDeltas].
    split; [exact Hok|]. split; [exact Hrun|]. split; [reflexivity|].
    repeat split.
    + change (friction (settings s) ^ Z.of_nat 0)%Q with 1%Q.
      symmetry. apply Qmult_1_r.
    + intros [|k] d; discriminate.
  - inversion Hres as [|? ? Hel Hres']; subst.
    destruct (getScrollableElement app) as [el|] eqn:Eel; [|congruence].
    assert (Hv0 : (1 <= Qabs (lastVelocityY s))%Q).
    { specialize (Hbig 0%nat ltac:(simpl; lia)).
      change (friction (settings s) ^ Z.of_nat 0)%Q with 1%Q in Hbig.
      rewrite Qmult_1_r in Hbig. exact Hbig. }
    destruct (animationFrame_continues app s el Hok Hrun Eel Hv0)
      as (Hc & Hok1 & Hrun1 & Hv1 & Hs1 & _).
    cbn [inertiaRun].
    destruct (animationFrame app s) as [s1 c1] eqn:E1.
    cbn [fst snd] in Hc, Hok1, Hrun1, Hv1, Hs1.
    assert (Hbig1 : forall k : nat, (k < length apps)%nat ->
              (1 <= Qabs (lastVelocityY s1 * friction (settings s1) ^ Z.of_nat k))%Q).
    { intros k Hk. rewrite Hv1, Hs1.
      specialize (Hbig (S k) ltac:(simpl; lia)).
      rewrite Qpower_succ_nat in Hbig.
      rewrite <- Qmult_assoc. exact Hbig. }
    destruct (IH s1 Hok1 Hrun1 Hres' Hbig1)
      as (Hok2 & Hrun2 & Hs2 & Hv2 & Hlen & Hnth).
    destruct (inertiaRun apps s1) as [s2 c2] eqn:E2.
    cbn [fst snd] in *.
    split; [exact Hok2|]. split; [exact Hrun2|].
    split; [congruence|]. rewrite Hc. cbn [List.app scrollDeltas length nth_error].
    repeat split.
    + rewrite Hv2, Hv1, Hs1.
      rewrite <- Qmult_assoc.
      apply Qmult_comp; [reflexivity|].
      symmetry. apply Qpower_succ_nat.
    + rewrite Hlen. reflexivity.
    + intros [|k] d Hd; cbn [nth_error] in Hd.
      * injection Hd as <-.
        change (friction (settings s) ^ Z.of_nat 0)%Q with 1%Q.
        symmetry. apply Qmult_1_r.
      * rewrite (Hnth k d Hd), Hv1, Hs1.
        rewrite <- Qmult_assoc.
        apply Qmult_comp; [reflexivity|].
        symmetry. apply Qpower_succ_nat.
Qed.

(** Whatever the state, a tick scrolls only by a velocity of magnitude
    at least 1. *)
Lemma inertiaStep_scrolls_big app s el dy :
  In (ScrollBy el dy) (snd (inertiaStep app s)) -> (1 <= Qabs dy)%Q.
Proof.
  unfold inertiaStep.
  destruct (getScrollableElement app) as [e|]; [|intros []].
  destruct (Qltb (Qabs (lastVelocityY s)) 1) eqn:Hlt; [intros []|].
  simpl. intros [[= _ <-]|[]]. apply Qltb_ge. exact Hlt.
Qed.

Lemma fireFrame_scrolls_big h app s el dy :
  In (ScrollBy el dy) (snd (fireFrame h app s)) -> (1 <= Qabs dy)%Q.
Proof.
  unfold fireFrame. destruct (existsb (Z.eqb h) (pendingFrames s)).
  - apply inertiaStep_scrolls_big.
  - intros [].
Qed.

Lemma animationFrame_scrolls_big app s el dy :
  In (ScrollBy el dy) (snd (animationFrame app s)) -> (1 <= Qabs dy)%Q.
Proof.
  unfold animationFrame. destruct (pendingFrames s) as [|h ?].
  - intros [].
  - apply fireFrame_scrolls_big.
Qed.

Lemma inertiaRun_scrolls_big apps :
  forall s el dy,
    In (ScrollBy el dy) (snd (inertiaRun apps s)) -> (1 <= Qabs dy)%Q.
Proof.
  induction apps as [|app apps IH]; intros s el dy; simpl; [intros []|].
  destruct (animationFrame app s) as [s1 c1] eqn:E1.
  destruct (inertiaRun apps s1) as [s2 c2] eqn:E2. simpl.
  intros H. apply in_app_or in H as [H|H].
  - apply (animationFrame_scrolls_big app s el dy). rewrite E1. exact H.
  - apply (IH s1 el dy). rewrite E2. exact H.
Qed.

End Decay.

(** ** The drag threshold *)

Section Threshold.

Lemma moves_cons (m : MouseEvent * Workspace) (ms : list (MouseEvent * Workspace)) :
  moves (m :: ms) = EMouseMove (fst m) (snd m) :: moves ms.
Proof. reflexivity. Qed.

Lemma run_moves_unresolvable (ms : list (MouseEvent * Workspace)) (s : State) :
  Forall (fun m => getScrollableElement (snd m) = None) ms ->
  run (moves ms) s = (s, []).
Proof.
  induction 1 as [|m ms Hm _ IH]; [reflexivity|].
  rewrite moves_cons. cbn [run dispatch].
  rewrite handleMouseMove_unresolvable by exact Hm.
  rewrite IH. reflexivity.
Qed.

Lemma run_app (es1 es2 : list Event) :
  forall s : State,
    run (es1 ++ es2) s =
      (fst (run es2 (fst (run es1 s))),
       snd (run es1 s) ++ snd (run es2 (fst (run es1 s)))).
Proof.
  induction es1 as [|e es1 IH]; intros s.
  - simpl. destruct (run es2 s). reflexivity.
  - cbn [List.app run]. destruct (dispatch e s) as [s1 c1].
    rewrite IH. destruct (run es1 s1) as [s2 c2]. simpl.
    rewrite app_assoc. reflexivity.
Qed.

Lemma moves_app (ms1 ms2 : list (MouseEvent * Workspace)) :
  moves (ms1 ++ ms2) = moves ms1 ++ moves ms2.
Proof. apply map_app. Qed.

(** A move that does not cross leaves an armed gesture as it is. *)
Lemma handleMouseMove_armed_stays (m : MouseEvent * Workspace) (s : State) :
  didDrag s = false ->
  crosses (startY s) m = false ->
  handleMouseMove (fst m) (snd m) s = (s, []).
Proof.
  intros Hg Hc. unfold handleMouseMove, crosses in *.
  destruct (negb (isDragging s)); [reflexivity|].
  destruct (getScrollableElement (snd m)) as [el|]; [|reflexivity].
  rewrite Hg. cbn [negb]. rewrite Hc. cbv beta iota. rewrite Hg. reflexivity.
Qed.

(** The move that crosses confirms the drag and scrolls. *)
Lemma handleMouseMove_armed_crosses (m : MouseEvent * Workspace) (s : State) :
  isDragging s = true -> didDrag s = false ->
  crosses (startY s) m = true ->
  exists el : Element,
    getScrollableElement (snd m) = Some el /\
    handleMouseMove (fst m) (snd m) s =
      (set_startY (clientY (fst m))
         (set_lastVelocityY (- (clientY (fst m) - startY s))%Q
            (set_didDrag true s)),
       [ClassListAdd; ScrollBy el (- (clientY (fst m) - startY s))%Q]).
Proof.
  intros Hd Hg Hc. unfold handleMouseMove, crosses in *.
  destruct (getScrollableElement (snd m)) as [el|]; [|discriminate].
  exists el. split; [reflexivity|].
  rewrite Hd, Hg. cbn [negb]. rewrite Hc. reflexivity.
Qed.

Lemma run_moves_armed_stays (ms : list (MouseEvent * Workspace)) (s : State) :
  didDrag s = false ->
  Forall (fun m => crosses (startY s) m = false) ms ->
  run (moves ms) s = (s, []).
Proof.
  intros Hg. induction 1 as [|m ms Hm _ IH]; [reflexivity|].
  rewrite moves_cons. cbn [run dispatch].
  rewrite handleMouseMove_armed_stays by assumption.
  rewrite IH. reflexivity.
Qed.

(** Once dragging, moves keep dragging and make no further transition. *)
Lemma run_moves_dragging (ms : list (MouseEvent * Workspace)) :
  forall s : State,
    isDragging s = true -> didDrag s = true ->
    isDragging (fst (run (moves ms) s)) = true /\
    didDrag (fst (run (moves ms) s)) = true /\
    transitions (snd (run (moves ms) s)) = 0%nat.
Proof.
  induction ms as [|m ms IH]; intros s Hd Hg; [simpl; auto|].
  rewrite moves_cons. cbn [run dispatch].
  destruct (getScrollableElement (snd m)) as [el|] eqn:Hel.
  - rewrite (handleMouseMove_dragging (fst m) (snd m) s el Hd Hg Hel).
    specialize (IH (set_startY (clientY (fst m))
                      (set_lastVelocityY (- (clientY (fst m) - startY s))%Q s))
                   Hd Hg).
    destruct (run (moves ms) _) as [s2 c2]. exact IH.
  - rewrite (handleMouseMove_unresolvable (fst m) (snd m) s Hel).
    specialize (IH s Hd Hg).
    destruct (run (moves ms) s) as [s2 c2]. exact IH.
Qed.

Lemma within_not_crosses (a : Q) (m : MouseEvent * Workspace) :
  getScrollableElement (snd m) = None \/
  (Qabs (clientY (fst m) - a) <= DRAG_THRESHOLD)%Q ->
  crosses a m = false.
Proof.
  unfold crosses. intros [H|H].
  - rewrite H. reflexivity.
  - destruct (getScrollableElement (snd m)); [|reflexivity].
    apply Qltb_ge. exact H.
Qed.

End Threshold.

(** ** One scheduled tick at most *)

Section Scheduling.

(** [frames_ok] looks at the handle and the scheduler only. *)
Lemma frames_ok_ext (s t : State) :
  nextFrameId t = nextFrameId s ->
  animationFrameId t = animationFrameId s ->
  pendingFrames t = pendingFrames s ->
  frames_ok s -> frames_ok t.
Proof.
  intros Hn Hid Hp (H1 & H2 & H3). unfold frames_ok, running in *.
  rewrite Hn, Hid, Hp. auto.
Qed.

(** Closes [frames_ok s -> frames_ok t] when [t] is [s] with other
    fields written. *)
Ltac frames_untouched := simpl; apply frames_ok_ext; reflexivity.

Lemma initial_ok cfg : frames_ok (initial cfg).
Proof.
  unfold frames_ok. simpl. split; [lia|]. split; [discriminate|]. left. reflexivity.
Qed.

Lemma handleMouseDown_ok evt app s :
  frames_ok s -> frames_ok (fst (handleMouseDown evt app s)).
Proof.
  intros Hok. unfold handleMouseDown.
  destruct (negb (button evt =? mouseButton (settings s))%Z); [exact Hok|].
  destruct (modifierRejects (settings s) evt); [exact Hok|].
  pose proof (stopInertiaScroll_ok s Hok) as Hok1.
  destruct (negb (inLeafContent evt)); [exact Hok1|].
  destruct (getScrollableElement app); [|exact Hok1].
  revert Hok1. frames_untouched.
Qed.

Lemma handleMouseMove_ok evt app s :
  frames_ok s -> frames_ok (fst (handleMouseMove evt app s)).
Proof.
  intros Hok. unfold handleMouseMove.
  destruct (negb (isDragging s)); [exact Hok|].
  destruct (getScrollableElement app); [|exact Hok].
  destruct (negb (didDrag s)).
  - destruct (Qltb DRAG_THRESHOLD (Qabs (clientY evt - startY s))).
    + revert Hok. frames_untouched.
    + cbv beta iota. destruct (didDrag s); [|exact Hok].
      revert Hok. frames_untouched.
  - cbv beta iota. destruct (didDrag s); [|exact Hok].
    revert Hok. frames_untouched.
Qed.

Lemma handleMouseUp_ok evt s :
  frames_ok s -> frames_ok (fst (handleMouseUp evt s)).
Proof.
  intros Hok. unfold handleMouseUp.
  destruct (negb (button evt =? mouseButton (settings s))%Z || negb (isDragging s));
    [exact Hok|].
  assert (Hok1 : frames_ok (set_isDragging false s)).
  { revert Hok. frames_untouched. }
  cbv zeta. destruct (didDrag (set_isDragging false s)); [|exact Hok1].
  apply startInertiaScroll_running. exact Hok1.
Qed.

Lemma handleContextMenu_ok evt s :
  frames_ok s -> frames_ok (fst (handleContextMenu evt s)).
Proof.
  intros Hok. unfold handleContextMenu.
  destruct (didDrag s); [|exact Hok].
  revert Hok. frames_untouched.
Qed.

Lemma fireFrame_ok h app s :
  frames_ok s -> frames_ok (fst (fireFrame h app s)).
Proof.
  intros Hok. unfold fireFrame.
  destruct (existsb (Z.eqb h) (pendingFrames s)) eqn:Hin; [|exact Hok].
  assert (Hrun : running s).
  { destruct Hok as (_ & _ & [Hp|Hr]); [|exact Hr].
    rewrite Hp in Hin. discriminate. }
  assert (Hh : cancelAnimationFrame h s = set_pendingFrames [] s).
  { destruct Hrun as (h' & _ & _ & Hp). unfold cancelAnimationFrame.
    rewrite Hp in Hin |- *. simpl in Hin.
    rewrite orb_false_r in Hin. apply Z.eqb_eq in Hin. subst h'.
    rewrite filter_self_removed. reflexivity. }
  rewrite Hh, <- (animationFrame_running app s Hrun).
  destruct (getScrollableElement app) as [el|] eqn:Hel.
  - destruct (Qlt_le_dec (Qabs (lastVelocityY s)) 1) as [Hlt|Hge].
    + destruct (animationFrame_terminates app s Hok Hrun (or_intror Hlt))
        as (_ & Hid & Hp & _ & Hn & _).
      destruct Hok as (Hpos & _). unfold frames_ok.
      rewrite Hid, Hp, Hn. split; [exact Hpos|]. split; [discriminate|].
      left. reflexivity.
    + apply (animationFrame_continues app s el Hok Hrun Hel Hge).
  - destruct (animationFrame_terminates app s Hok Hrun (or_introl Hel))
      as (_ & Hid & Hp & _ & Hn & _).
    destruct Hok as (Hpos & _). unfold frames_ok.
    rewrite Hid, Hp, Hn. split; [exact Hpos|]. split; [discriminate|].
    left. reflexivity.
Qed.

Lemma dispatch_ok e s : frames_ok s -> frames_ok (fst (dispatch e s)).
Proof.
  destruct e; simpl.
  - apply handleMouseDown_ok.
  - apply handleMouseMove_ok.
  - apply handleMouseUp_ok.
  - apply handleContextMenu_ok.
  - apply fireFrame_ok.
  - frames_untouched.
  - frames_untouched.
  - frames_untouched.
Qed.

Lemma run_ok (es : list Event) :
  forall s : State, frames_ok s -> frames_ok (fst (run es s)).
Proof.
  induction es as [|e es IH]; intros s Hok; [exact Hok|].
  cbn [run]. pose proof (dispatch_ok e s Hok) as Hok1.
  destruct (dispatch e s) as [s1 c1]. specialize (IH s1 Hok1).
  destruct (run es s1) as [s2 c2]. exact IH.
Qed.

Lemma frames_ok_at_most_one s :
  frames_ok s -> (length (pendingFrames s) <= 1)%nat.
Proof.
  intros (_ & _ & [Hp|(h & _ & _ & Hp)]); rewrite Hp; simpl; lia.
Qed.

Lemma last_cons_default (d x : Q) (l : list Q) :
  List.last (d :: l) x = List.last l d.
Proof.
  revert d x. induction l as [|y l IH]; intros d x; [reflexivity|].
  change (List.last (d :: y :: l) x) with (List.last (y :: l) x).
  rewrite (IH y x), (IH y d). reflexivity.
Qed.

(** Over a stretch of moves the velocity is the delta of the last
    scroll made in it, and what it was before when none was made. *)
Lemma run_moves_velocity (ms : list (MouseEvent * Workspace)) :
  forall s : State,
    lastVelocityY (fst (run (moves ms) s))
    = List.last (scrollDeltas (snd (run (moves ms) s))) (lastVelocityY s).
Proof.
  induction ms as [|m ms IH]; intros s; [reflexivity|].
  rewrite moves_cons. cbn [run dispatch].
  assert (Hcase :
    handleMouseMove (fst m) (snd m) s = (s, []) \/
    exists el c1,
      scrollDeltas c1 = [] /\
      handleMouseMove (fst m) (snd m) s =
        (set_startY (clientY (fst m))
           (set_lastVelocityY (- (clientY (fst m) - startY s))%Q
              (set_didDrag true s)),
         c1 ++ [ScrollBy el (- (clientY (fst m) - startY s))%Q])).
  { unfold handleMouseMove.
    destruct (negb (isDragging s)); [left; reflexivity|].
    destruct (getScrollableElement (snd m)) as [el|]; [|left; reflexivity].
    destruct (didDrag s) eqn:Hg; cbn [negb].
    - cbv beta iota. rewrite Hg. right. exists el, []. split; [reflexivity|].
      destruct s; simpl in *; subst; reflexivity.
    - destruct (Qltb DRAG_THRESHOLD (Qabs (clientY (fst m) - startY s))).
      + right. exists el, [ClassListAdd]. split; reflexivity.
      + cbv beta iota. rewrite Hg. left. reflexivity. }
  destruct Hcase as [Hsame | (el & c1 & Hc1 & Hmove)].
  - rewrite Hsame. specialize (IH s).
    destruct (run (moves ms) s) as [s2 c2]. exact IH.
  - rewrite Hmove.
    specialize (IH (set_startY (clientY (fst m))
                      (set_lastVelocityY (- (clientY (fst m) - startY s))%Q
                         (set_didDrag true s)))).
    destruct (run (moves ms) _) as [s2 c2]. cbn [fst snd] in *.
    rewrite IH. rewrite !scrollDeltas_app, Hc1. cbn [scrollDeltas List.app].
    rewrite last_cons_default. reflexivity.
Qed.

Lemma handleMouseUp_velocity evt s :
  lastVelocityY (fst (handleMouseUp evt s)) = lastVelocityY s.
Proof.
  unfold handleMouseUp.
  destruct (negb (button evt =? mouseButton (settings s))%Z || negb (isDragging s));
    [reflexivity|].
  cbv zeta. destruct (didDrag (set_isDragging false s)); [|reflexivity].
  apply (startInertiaScroll_running_fields (set_isDragging false s)).
Qed.

End Scheduling.

(** ** The model on the first scenario of the specification *)

(** Right button, no modifier, friction 0.92: the calls of the gesture
    and of the first two frames, and the state they leave. *)
Example scenario_drag_and_glide_calls :
  snd (run dragTwiceAndGlide (initial DEFAULT_SETTINGS))
  = [PreventDefault;
     ClassListAdd; ScrollBy 1%nat 10;
     ScrollBy 1%nat 5;
     ClassListRemove;
     ScrollBy 1%nat 5;
     ScrollBy 1%nat (5 * (92 # 100))].
Proof. vm_compute. reflexivity. Qed.

Example scenario_drag_and_glide_state :
  let s := fst (run dragTwiceAndGlide (initial DEFAULT_SETTINGS)) in
  isDragging s = false /\ didDrag s = true /\
  (lastVelocityY s == 4232 # 1000)%Q /\
  animationFrameId s = Some 3%Z /\ pendingFrames s = [3%Z].
Proof. vm_compute. repeat split. Qed.

(** * Main results *)

(** ** The inertia run *)

Lemma gliding_ok cfg v : frames_ok (gliding cfg v) /\ running (gliding cfg v).
Proof.
  assert (R : running (gliding cfg v)).
  { exists 1%Z. repeat split. discriminate. }
  split; [|exact R].
  unfold frames_ok. simpl.
  split; [lia|]. split; [discriminate|]. right. exact R.
Qed.

(** C1.  From a seed velocity [v0] with friction [f], as long as the run
    goes on (each tick finds a scroll target and a velocity of magnitude
    at least 1) the velocity after [n] ticks is [v0 * f^n] and a callback
    is scheduled; on the tick where the magnitude of the velocity is below
    1 the run terminates: nothing is scrolled, the handle is cleared, the
    velocity is zero, no callback is scheduled, and later frames run
    nothing. *)
Theorem inertia_velocity_geometric (s : State) (apps : list Workspace) :
  frames_ok s -> running s ->
  Forall (fun app => getScrollableElement app <> None) apps ->
  (forall k : nat, (k < length apps)%nat ->
     (1 <= Qabs (lastVelocityY s * friction (settings s) ^ Z.of_nat k))%Q) ->
  let v0 := lastVelocityY s in
  let f := friction (settings s) in
  let n := length apps in
  let s' := fst (inertiaRun apps s) in
  (lastVelocityY s' == v0 * f ^ Z.of_nat n)%Q /\
  running s' /\
  ((Qabs (v0 * f ^ Z.of_nat n) < 1)%Q ->
   forall app : Workspace,
     let s'' := fst (animationFrame app s') in
     snd (animationFrame app s') = [] /\
     animationFrameId s'' = None /\
     lastVelocityY s'' = 0%Q /\
     pendingFrames s'' = [] /\
     forall more : list Workspace, inertiaRun more s'' = (s'', [])).
Proof.
  intros Hok Hrun Hres Hbig v0 f n s'.
  destruct (inertiaRun_geometric apps s Hok Hrun Hres Hbig)
    as (Hok' & Hrun' & _ & Hv & _).
  fold s' in Hok', Hrun', Hv.
  split; [exact Hv|]. split; [exact Hrun'|].
  intros Hsmall app s''.
  assert (Hsmall' : (Qabs (lastVelocityY s') < 1)%Q).
  { rewrite Hv. exact Hsmall. }
  destruct (animationFrame_terminates app s' Hok' Hrun' (or_intror Hsmall'))
    as (Hc & Hid & Hp & Hz & _).
  fold s'' in Hid, Hp, Hz.
  repeat split; try assumption.
  intros more. apply inertiaRun_idle. exact Hp.
Qed.

Lemma inertia_velocity_geometric_witness :
  (lastVelocityY
     (fst (inertiaRun [sourceView; readingView; sourceView; sourceView]
             (fst (run dragAndRelease (initial halving)))))
   == 10 * (1 # 2) ^ 4)%Q /\
  pendingFrames
    (fst (animationFrame sourceView
            (fst (inertiaRun [sourceView; readingView; sourceView; sourceView]
                    (fst (run dragAndRelease (initial halving))))))) = [].
Proof.
  assert (Hok : frames_ok (fst (run dragAndRelease (initial halving)))).
  { apply run_ok, initial_ok. }
  assert (Hrun : running (fst (run dragAndRelease (initial halving)))).
  { exists 1%Z. repeat split. discriminate. }
  assert (Hres : Forall (fun app => getScrollableElement app <> None)
                        [sourceView; readingView; sourceView; sourceView]).
  { repeat constructor; discriminate. }
  assert (Hbig : forall k : nat,
             (k < length [sourceView; readingView; sourceView; sourceView])%nat ->
             (1 <= Qabs (lastVelocityY (fst (run dragAndRelease (initial halving)))
                         * friction (settings (fst (run dragAndRelease (initial halving))))
                           ^ Z.of_nat k))%Q).
  { intros [|[|[|[|k]]]] Hk; [vm_compute; discriminate ..|simpl in Hk; lia]. }
  destruct (inertia_velocity_geometric
              (fst (run dragAndRelease (initial halving)))
              [sourceView; readingView; sourceView; sourceView]
              Hok Hrun Hres Hbig)
    as (Hv & _ & Hterm).
  split.
  - rewrite Hv. vm_compute. reflexivity.
  - apply Hterm. vm_compute. reflexivity.
Defined.

(** *** The engine over settings as they are loaded *)

Lemma loadSettings_unfold (data : option (gmap string JsVal)) :
  loadSettings data =
    match data with
    | Some o => o ∪ toObject DEFAULT_SETTINGS
    | None => toObject DEFAULT_SETTINGS
    end.
Proof.
  unfold loadSettings, Object_assign. simpl.
  rewrite (right_id_L ∅ (∪)). destruct data; reflexivity.
Qed.














(** ** Gestures *)

(** C9.  When no scroll target can be resolved, a pointer move changes
    nothing and scrolls nothing, however many such moves arrive, so
    [isDragging] and [didDrag] stay as they are until the pointer-up of
    the trigger button clears [isDragging]; and an inertia tick ends the
    run (handle cleared, velocity zero, nothing scheduled) without a
    scroll. *)
Theorem unresolvable_target_skipped (s : State) (app : Workspace) :
  getScrollableElement app = None ->
  (forall evt : MouseEvent, handleMouseMove evt app s = (s, [])) /\
  (forall ms : list (MouseEvent * Workspace),
      Forall (fun m => getScrollableElement (snd m) = None) ms ->
      run (moves ms) s = (s, [])) /\
  (forall evt : MouseEvent,
      isDragging s = true -> button evt = mouseButton (settings s) ->
      isDragging (fst (handleMouseUp evt s)) = false) /\
  inertiaStep app s = (stopInertiaScroll s, []) /\
  (frames_ok s -> running s ->
   snd (animationFrame app s) = [] /\
   animationFrameId (fst (animationFrame app s)) = None /\
   lastVelocityY (fst (animationFrame app s)) = 0%Q /\
   pendingFrames (fst (animationFrame app s)) = []).
Proof.
  intros Hel. split; [|split; [|split; [|split]]].
  - intros evt. apply handleMouseMove_unresolvable. exact Hel.
  - intros ms. apply run_moves_unresolvable.
  - intros evt Hd Hb. unfold handleMouseUp.
    rewrite Hb, Z.eqb_refl, Hd. simpl.
    destruct (didDrag s); [|reflexivity].
    destruct (startInertiaScroll_running_fields (set_isDragging false s))
      as (_ & _ & H & _). exact H.
  - apply inertiaStep_stop. left. exact Hel.
  - intros Hok Hrun.
    destruct (animationFrame_terminates app s Hok Hrun (or_introl Hel))
      as (Hc & Hid & Hp & Hz & _).
    repeat split; assumption.
Qed.

Lemma unresolvable_target_skipped_witness :
  handleMouseMove (rightButtonAt 90) None (draggingAt DEFAULT_SETTINGS 100)
  = (draggingAt DEFAULT_SETTINGS 100, []) /\
  animationFrameId (fst (animationFrame None (gliding DEFAULT_SETTINGS 5))) = None.
Proof.
  split.
  - apply (unresolvable_target_skipped (draggingAt DEFAULT_SETTINGS 100) None).
    reflexivity.
  - apply (unresolvable_target_skipped (gliding DEFAULT_SETTINGS 5) None);
      [reflexivity | apply gliding_ok | apply gliding_ok].
Defined.

(** C3.  A move handled while dragging, [d] below the anchor, scrolls the
    target by [-d], records [-d] as the velocity and moves the anchor to
    the pointer, so that the next move scrolls by its distance from this
    one, not from where the gesture began. *)
Theorem dragging_move_scrolls_inverted
    (s : State) (evt : MouseEvent) (app : Workspace) (el : Element) (d : Q) :
  isDragging s = true -> didDrag s = true ->
  getScrollableElement app = Some el ->
  d = (clientY evt - startY s)%Q ->
  let s' := fst (handleMouseMove evt app s) in
  snd (handleMouseMove evt app s) = [ScrollBy el (- d)%Q] /\
  lastVelocityY s' = (- d)%Q /\
  startY s' = clientY evt /\
  isDragging s' = true /\ didDrag s' = true /\
  forall (evt2 : MouseEvent) (app2 : Workspace) (el2 : Element),
    getScrollableElement app2 = Some el2 ->
    snd (handleMouseMove evt2 app2 s')
    = [ScrollBy el2 (- (clientY evt2 - clientY evt))%Q].
Proof.
  intros Hd Hg Hel -> s'. subst s'.
  rewrite (handleMouseMove_dragging evt app s el Hd Hg Hel). simpl.
  repeat split; try assumption.
  intros evt2 app2 el2 Hel2.
  rewrite (handleMouseMove_dragging evt2 app2 _ el2); [reflexivity | | | exact Hel2];
    assumption.
Qed.

Lemma dragging_move_scrolls_inverted_witness :
  snd (handleMouseMove (rightButtonAt 107) sourceView
         (draggingAt DEFAULT_SETTINGS 100))
  = [ScrollBy 1%nat (- (107 - 100))%Q].
Proof.
  apply (dragging_move_scrolls_inverted
           (draggingAt DEFAULT_SETTINGS 100) (rightButtonAt 107) sourceView
           1%nat (107 - 100)%Q); reflexivity.
Defined.

(** C4.  A context-menu event has its default action suppressed exactly
    when [didDrag] is set and the configured button is the right button
    (2); whatever the button, [didDrag] is clear afterwards. *)
Theorem contextmenu_suppression (s : State) (evt : MouseEvent) :
  (In PreventDefault (snd (handleContextMenu evt s)) <->
   didDrag s = true /\ mouseButton (settings s) = 2%Z) /\
  didDrag (fst (handleContextMenu evt s)) = false.
Proof.
  unfold handleContextMenu.
  destruct (didDrag s) eqn:Hg; simpl.
  - destruct (Z.eqb_spec (mouseButton (settings s)) 2) as [E|E]; simpl.
    + split; [|reflexivity]. split; [intros _; split; [reflexivity|exact E]|].
      intros _. left. reflexivity.
    + split; [|reflexivity]. split; [intros []|]. intros [_ E']. contradiction.
  - split; [|exact Hg]. split; [intros []|]. intros [E _]. discriminate.
Qed.

Lemma contextmenu_suppression_witness :
  In PreventDefault
     (snd (handleContextMenu (rightButtonAt 90)
             (fst (run dragAndRelease (initial DEFAULT_SETTINGS))))) /\
  didDrag (fst (handleContextMenu (rightButtonAt 90)
                  (fst (run dragAndRelease (initial DEFAULT_SETTINGS))))) = false.
Proof.
  destruct (contextmenu_suppression
              (fst (run dragAndRelease (initial DEFAULT_SETTINGS)))
              (rightButtonAt 90)) as (Hiff & Hclear).
  split; [|exact Hclear].
  apply Hiff. split; reflexivity.
Defined.

(** C5, as the specification states it, fails: with [none] configured,
    a press of the trigger button with the Meta key held (and no other
    modifier) has a modifier key held, yet it arms the gesture and has
    its default action suppressed.  The handler reads [ctrlKey], [altKey]
    and [shiftKey] only. *)
Lemma meta_held_press_arms :
  let evt := rightButtonWithMetaAt 100 in
  let s := initial DEFAULT_SETTINGS in
  button evt = mouseButton (settings s) /\
  modifierKey (settings s) = ModNone /\
  metaKey evt = true /\
  spec_modifierExact (modifierKey (settings s)) evt = false /\
  snd (handleMouseDown evt sourceView s) = [PreventDefault] /\
  isDragging (fst (handleMouseDown evt sourceView s)) = true /\
  isDragging s = false.
Proof.
  vm_compute. repeat split.
Qed.

(** C5, amended.  For a pointer-down with the configured button, the
    modifier condition is: with [none], none of Ctrl, Alt and Shift is
    held; with [ctrl], [shift] or [alt], that key is held, the others not
    being looked at.  The Meta key is never looked at: the handler does
    the same with it held or not.  When the condition fails the handler
    leaves the state as it is and makes no call on the event; the default
    action is suppressed only when the condition holds; and when it
    holds, inside a note with a scroll target, the gesture is armed. *)
Theorem mousedown_modifier_condition
    (s : State) (evt : MouseEvent) (app : Workspace) :
  button evt = mouseButton (settings s) ->
  (spec_modifierSatisfied (modifierKey (settings s)) evt = false ->
   handleMouseDown evt app s = (s, [])) /\
  (In PreventDefault (snd (handleMouseDown evt app s)) ->
   spec_modifierSatisfied (modifierKey (settings s)) evt = true) /\
  (spec_modifierSatisfied (modifierKey (settings s)) evt = true ->
   inLeafContent evt = true -> getScrollableElement app <> None ->
   let s' := fst (handleMouseDown evt app s) in
   snd (handleMouseDown evt app s) = [PreventDefault] /\
   isDragging s' = true /\ didDrag s' = false /\
   startY s' = clientY evt /\ lastVelocityY s' = 0%Q) /\
  (forall held : bool,
     spec_modifierSatisfied (modifierKey (settings s)) (withMeta held evt)
     = spec_modifierSatisfied (modifierKey (settings s)) evt /\
     handleMouseDown (withMeta held evt) app s = handleMouseDown evt app s) /\
  (metaKey evt = false ->
   spec_modifierSatisfied (modifierKey (settings s)) evt
   = spec_modifierExact (modifierKey (settings s)) evt).
Proof.
  intros Hb.
  assert (Hno : spec_modifierSatisfied (modifierKey (settings s)) evt = false ->
                handleMouseDown evt app s = (s, [])).
  { intros Hm. unfold handleMouseDown.
    rewrite Hb, Z.eqb_refl, modifierRejects_spec, Hm. reflexivity. }
  split; [exact Hno|]. split; [|split; [|split]].
  - destruct (spec_modifierSatisfied (modifierKey (settings s)) evt) eqn:Hm;
      [reflexivity|].
    rewrite (Hno eq_refl). intros [].
  - intros Hm Hin Hel s'. subst s'.
    rewrite handleMouseDown_armed.
    + simpl. repeat split.
    + unfold arms. rewrite Hb, Z.eqb_refl, modifierRejects_spec, Hm, Hin.
      destruct (getScrollableElement app); [reflexivity | contradiction].
  - intros held. split; reflexivity.
  - intros Hmeta. unfold spec_modifierSatisfied, spec_modifierExact.
    rewrite Hmeta. destruct (modifierKey (settings s)); [|reflexivity ..].
    cbn [negb]. rewrite andb_true_r. reflexivity.
Qed.

Lemma mousedown_modifier_condition_witness :
  handleMouseDown (rightButtonAt 100) sourceView (initial withCtrl)
  = (initial withCtrl, []) /\
  isDragging
    (fst (handleMouseDown (mkEvent 2 100 true false true true) sourceView
            (initial withCtrl))) = true /\
  spec_modifierSatisfied ModNone (rightButtonAt 100)
  = spec_modifierExact ModNone (rightButtonAt 100).
Proof.
  destruct (mousedown_modifier_condition (initial withCtrl) (rightButtonAt 100)
              sourceView eq_refl) as (Hfail & _).
  destruct (mousedown_modifier_condition (initial withCtrl)
              (mkEvent 2 100 true false true true) sourceView eq_refl)
    as (_ & _ & Harm & _).
  destruct (mousedown_modifier_condition (initial DEFAULT_SETTINGS)
              (rightButtonAt 100) sourceView eq_refl)
    as (_ & _ & _ & _ & Hexact).
  split; [apply Hfail; reflexivity|]. split.
  - apply Harm; [reflexivity | reflexivity | discriminate].
  - apply Hexact. reflexivity.
Defined.

(** C6, as the specification states it, fails: a pointer-down of the
    trigger button outside any note, arriving during a glide, cancels the
    scheduled callback, clears the handle and zeroes the velocity. *)
Lemma mousedown_outside_stops_glide :
  let s := fst (run dragAndRelease (initial DEFAULT_SETTINGS)) in
  let s' := fst (handleMouseDown (rightButtonOutsideAt 50) sourceView s) in
  inLeafContent (rightButtonOutsideAt 50) = false /\
  (animationFrameId s = Some 1%Z /\ pendingFrames s = [1%Z] /\
   lastVelocityY s = 10%Q) /\
  (animationFrameId s' = None /\ pendingFrames s' = [] /\
   lastVelocityY s' = 0%Q) /\
  s' <> s.
Proof.
  vm_compute. repeat split. discriminate.
Qed.

(** C6, amended.  A pointer-down outside the recognised content region
    suppresses no default action and leaves [isDragging], [didDrag], the
    anchor and the settings as they are.  With another button, or with the
    modifier condition unmet, nothing changes at all; with the trigger
    button and the modifier condition met, the inertia run is stopped: the
    velocity is zero afterwards, the handle is cleared and no callback
    stays scheduled. *)
Theorem mousedown_outside_content
    (s : State) (evt : MouseEvent) (app : Workspace) :
  inLeafContent evt = false ->
  let s' := fst (handleMouseDown evt app s) in
  snd (handleMouseDown evt app s) = [] /\
  isDragging s' = isDragging s /\ didDrag s' = didDrag s /\
  startY s' = startY s /\ settings s' = settings s /\
  (button evt <> mouseButton (settings s) \/
   spec_modifierSatisfied (modifierKey (settings s)) evt = false ->
   s' = s) /\
  (button evt = mouseButton (settings s) ->
   spec_modifierSatisfied (modifierKey (settings s)) evt = true ->
   s' = stopInertiaScroll s /\ lastVelocityY s' = 0%Q /\
   (frames_ok s -> animationFrameId s' = None /\ pendingFrames s' = [])).
Proof.
  intros Hout s'. subst s'. unfold handleMouseDown.
  rewrite modifierRejects_spec, Hout.
  destruct (Z.eqb_spec (button evt) (mouseButton (settings s))) as [Hb|Hb]; simpl.
  - destruct (spec_modifierSatisfied (modifierKey (settings s)) evt) eqn:Hm; simpl.
    + destruct (stopInertiaScroll_fields s) as (Hv & Hs & Hd & Hg & Hy & _).
      repeat split; try assumption.
      * intros [H|H]; [contradiction|discriminate].
      * apply stopInertiaScroll_stops; assumption.
      * apply stopInertiaScroll_stops; assumption.
    + repeat split; intros; discriminate.
  - repeat split; intros; contradiction.
Qed.

Lemma mousedown_outside_content_witness :
  snd (handleMouseDown (rightButtonOutsideAt 50) sourceView
         (fst (run dragAndRelease (initial DEFAULT_SETTINGS)))) = [] /\
  fst (handleMouseDown (mkEvent 0 50 false false false false) sourceView
         (fst (run dragAndRelease (initial DEFAULT_SETTINGS))))
  = fst (run dragAndRelease (initial DEFAULT_SETTINGS)).
Proof.
  split.
  - apply (mousedown_outside_content
             (fst (run dragAndRelease (initial DEFAULT_SETTINGS)))
             (rightButtonOutsideAt 50) sourceView). reflexivity.
  - apply (mousedown_outside_content
             (fst (run dragAndRelease (initial DEFAULT_SETTINGS)))
             (mkEvent 0 50 false false false false) sourceView).
    + reflexivity.
    + left. vm_compute. discriminate.
Defined.

(** ** Settings *)

(** C7, as the specification states it, fails: a stored [friction] that is
    a string, not a number, replaces the default 0.92. *)
Lemma loadSettings_keeps_malformed :
  corruptedData !! "friction" = Some (JStr "fast") /\
  conforms "friction" (JStr "fast") = false /\
  loadSettings (Some corruptedData) !! "friction" = Some (JStr "fast") /\
  toObject DEFAULT_SETTINGS !! "friction" = Some (JNum (92 # 100)) /\
  loadSettings (Some corruptedData) !! "friction"
  <> toObject DEFAULT_SETTINGS !! "friction".
Proof.
  assert (H : loadSettings (Some corruptedData) !! "friction" = Some (JStr "fast")).
  { rewrite loadSettings_unfold. apply lookup_union_Some_l. reflexivity. }
  repeat split; try assumption; try reflexivity.
  rewrite H. discriminate.
Qed.

(** C7, amended.  Loading merges the stored record over the defaults
    [{mouseButton: 2, modifierKey: 'none', friction: 0.92}]: with nothing
    stored the settings are the defaults, a field missing from the record
    keeps its default, and a field present in the record takes the stored
    value as it is, well-formed or not. *)
Theorem loadSettings_merges_over_defaults
    (data : option (gmap string JsVal)) (field : string) :
  (toObject DEFAULT_SETTINGS !! "mouseButton" = Some (JNum 2) /\
   toObject DEFAULT_SETTINGS !! "modifierKey" = Some (JStr "none") /\
   toObject DEFAULT_SETTINGS !! "friction" = Some (JNum (92 # 100))) /\
  loadSettings None = toObject DEFAULT_SETTINGS /\
  (forall o : gmap string JsVal,
      data = Some o -> o !! field = None ->
      loadSettings data !! field = toObject DEFAULT_SETTINGS !! field) /\
  (forall (o : gmap string JsVal) (v : JsVal),
      data = Some o -> o !! field = Some v ->
      loadSettings data !! field = Some v).
Proof.
  split; [repeat split|]. split; [apply loadSettings_unfold|]. split.
  - intros o -> Hmiss. rewrite loadSettings_unfold.
    apply lookup_union_r. exact Hmiss.
  - intros o v -> Hv. rewrite loadSettings_unfold.
    apply lookup_union_Some_l. exact Hv.
Qed.

Lemma loadSettings_merges_over_defaults_witness :
  loadSettings (Some corruptedData) !! "mouseButton" = Some (JNum 2) /\
  loadSettings (Some corruptedData) !! "friction" = Some (JStr "fast").
Proof.
  split.
  - destruct (loadSettings_merges_over_defaults (Some corruptedData) "mouseButton")
      as ((Hb & _) & _ & Hmiss & _).
    rewrite <- Hb. apply (Hmiss corruptedData); reflexivity.
  - destruct (loadSettings_merges_over_defaults (Some corruptedData) "friction")
      as (_ & _ & _ & Hpresent).
    apply (Hpresent corruptedData); reflexivity.
Defined.

(** C2, as the specification states it, fails: after a pointer-down at
    100 the pointer moves to 90 while no scroll target can be resolved;
    the displacement exceeds 5 but the drag is not confirmed at that move.
    It is confirmed at the next move that finds a target. *)
Lemma threshold_crossed_without_target :
  let s0 := fst (handleMouseDown (rightButtonAt 100) sourceView
                   (initial DEFAULT_SETTINGS)) in
  arms (rightButtonAt 100) sourceView (initial DEFAULT_SETTINGS) = true /\
  startY s0 = 100%Q /\
  (5 < Qabs (clientY (rightButtonAt 90) - startY s0))%Q /\
  getScrollableElement None = None /\
  didDrag (fst (handleMouseMove (rightButtonAt 90) None s0)) = false /\
  didDrag (fst (run (moves [(rightButtonAt 90, None);
                            (rightButtonAt 88, sourceView)]) s0)) = true.
Proof.
  vm_compute. repeat split.
Qed.

(** C2, amended.  After a pointer-down that arms a gesture with anchor
    [a]: as long as the moves stay within 5 px of [a], [didDrag] stays
    false and no call is made, so nothing is scrolled; and at the first
    move that finds a scroll target further than 5 px from [a] the drag is
    confirmed, it was not before, it stays confirmed over the moves that
    follow, and the whole stretch of moves makes exactly one transition to
    dragging. *)
Theorem drag_threshold_transition
    (s : State) (evt0 : MouseEvent) (app0 : Workspace) :
  arms evt0 app0 s = true ->
  let s0 := fst (handleMouseDown evt0 app0 s) in
  let a := clientY evt0 in
  (forall ms : list (MouseEvent * Workspace),
      Forall (fun m => (Qabs (clientY (fst m) - a) <= 5)%Q) ms ->
      didDrag (fst (run (moves ms) s0)) = false /\
      snd (run (moves ms) s0) = []) /\
  (forall (pre : list (MouseEvent * Workspace)) (m : MouseEvent * Workspace),
      Forall (fun m' => getScrollableElement (snd m') = None \/
                        (Qabs (clientY (fst m') - a) <= 5)%Q) pre ->
      getScrollableElement (snd m) <> None ->
      (5 < Qabs (clientY (fst m) - a))%Q ->
      didDrag (fst (run (moves pre) s0)) = false /\
      snd (run (moves pre) s0) = [] /\
      didDrag (fst (run (moves (pre ++ [m])) s0)) = true /\
      forall post : list (MouseEvent * Workspace),
        didDrag (fst (run (moves (pre ++ m :: post)) s0)) = true /\
        transitions (snd (run (moves (pre ++ m :: post)) s0)) = 1%nat).
Proof.
  intros Harm s0 a.
  assert (Hs0 : isDragging s0 = true /\ didDrag s0 = false /\ startY s0 = a).
  { subst s0. rewrite (handleMouseDown_armed evt0 app0 s Harm). simpl. auto. }
  destruct Hs0 as (Hd & Hg & Ha).
  assert (Hstay : forall pre : list (MouseEvent * Workspace),
             Forall (fun m' => getScrollableElement (snd m') = None \/
                               (Qabs (clientY (fst m') - a) <= 5)%Q) pre ->
             run (moves pre) s0 = (s0, [])).
  { intros pre Hpre. apply run_moves_armed_stays; [exact Hg|].
    rewrite Ha. revert Hpre. apply List.Forall_impl.
    intros m. apply within_not_crosses. }
  split.
  - intros ms Hms. rewrite Hstay; [simpl; auto|].
    revert Hms. apply List.Forall_impl. intros m H. right. exact H.
  - intros pre m Hpre Hel Hfar.
    rewrite (Hstay pre Hpre). simpl.
    split; [exact Hg|]. split; [reflexivity|].
    assert (Hc : crosses (startY s0) m = true).
    { unfold crosses. rewrite Ha.
      destruct (getScrollableElement (snd m)); [|contradiction].
      apply Qltb_lt. exact Hfar. }
    destruct (handleMouseMove_armed_crosses m s0 Hd Hg Hc) as (el & _ & Hmove).
    assert (Hpost : forall post : list (MouseEvent * Workspace),
               didDrag (fst (run (moves (pre ++ m :: post)) s0)) = true /\
               transitions (snd (run (moves (pre ++ m :: post)) s0)) = 1%nat).
    { intros post. rewrite moves_app, run_app, (Hstay pre Hpre).
      cbn [fst snd List.app]. rewrite moves_cons. cbn [run dispatch].
      rewrite Hmove.
      destruct (run_moves_dragging post
                  (set_startY (clientY (fst m))
                     (set_lastVelocityY (- (clientY (fst m) - startY s0))%Q
                        (set_didDrag true s0))) Hd eq_refl)
        as (_ & Hg2 & Ht2).
      destruct (run (moves post) _) as [s2 c2]. cbn [fst snd] in *.
      split; [exact Hg2|].
      unfold transitions in *. simpl. rewrite Ht2. reflexivity. }
    split; [|exact Hpost].
    apply (Hpost []).
Qed.

Lemma drag_threshold_transition_witness :
  didDrag (fst (run (moves [(rightButtonAt 103, sourceView);
                            (rightButtonAt 96, readingView)])
                  (fst (handleMouseDown (rightButtonAt 100) sourceView
                          (initial DEFAULT_SETTINGS))))) = false /\
  transitions
    (snd (run (moves ([(rightButtonAt 103, sourceView); (rightButtonAt 90, None)]
                      ++ (rightButtonAt 88, sourceView)
                      :: [(rightButtonAt 80, sourceView)]))
            (fst (handleMouseDown (rightButtonAt 100) sourceView
                    (initial DEFAULT_SETTINGS))))) = 1%nat.
Proof.
  destruct (drag_threshold_transition (initial DEFAULT_SETTINGS)
              (rightButtonAt 100) sourceView eq_refl) as (Hwithin & Hcross).
  split.
  - apply Hwithin. repeat constructor; vm_compute; discriminate.
  - apply (Hcross [(rightButtonAt 103, sourceView); (rightButtonAt 90, None)]
                  (rightButtonAt 88, sourceView)).
    + constructor; [right; vm_compute; discriminate|].
      constructor; [left; reflexivity|]. constructor.
    + discriminate.
    + vm_compute. reflexivity.
Defined.

(** C8.  After any sequence of events at most one animation-frame
    callback is scheduled.  A pointer-down that arms a gesture leaves no
    callback scheduled, no handle and a zero velocity, so that no tick of
    an earlier run fires after it; over the moves of
    the new gesture the velocity is the delta of the last scroll of this
    gesture, or zero when it has scrolled nothing, and the pointer-up
    hands exactly that velocity to the inertia run. *)
Theorem at_most_one_scheduled_tick (cfg : DragToScrollSettings) (es : list Event) :
  let s := fst (run es (initial cfg)) in
  (length (pendingFrames s) <= 1)%nat /\
  forall (evt : MouseEvent) (app : Workspace),
    arms evt app s = true ->
    let s0 := fst (handleMouseDown evt app s) in
    pendingFrames s0 = [] /\ animationFrameId s0 = None /\
    lastVelocityY s0 = 0%Q /\
    (forall (h : Z) (app' : Workspace), fireFrame h app' s0 = (s0, [])) /\
    forall (ms : list (MouseEvent * Workspace)) (up : MouseEvent),
      let s1 := fst (run (moves ms) s0) in
      lastVelocityY s1 = List.last (scrollDeltas (snd (run (moves ms) s0))) 0%Q /\
      lastVelocityY (fst (handleMouseUp up s1)) = lastVelocityY s1.
Proof.
  intros s.
  assert (Hok : frames_ok s) by (apply run_ok, initial_ok).
  split; [apply frames_ok_at_most_one; exact Hok|].
  intros evt app Harm s0.
  destruct (stopInertiaScroll_stops s Hok) as (Hid & Hp & _).
  assert (Hs0 : pendingFrames s0 = [] /\ animationFrameId s0 = None /\
                lastVelocityY s0 = 0%Q).
  { subst s0. rewrite (handleMouseDown_armed evt app s Harm). simpl. auto. }
  destruct Hs0 as (Hp0 & Hid0 & Hv0).
  split; [exact Hp0|]. split; [exact Hid0|]. split; [exact Hv0|].
  split; [intros h app'; unfold fireFrame; rewrite Hp0; reflexivity|].
  intros ms up s1. split.
  - subst s1. rewrite run_moves_velocity, Hv0. reflexivity.
  - apply handleMouseUp_velocity.
Qed.

Lemma at_most_one_scheduled_tick_witness :
  pendingFrames
    (fst (handleMouseDown (rightButtonAt 50) readingView
            (fst (run dragAndRelease (initial DEFAULT_SETTINGS))))) = [] /\
  pendingFrames (fst (run dragAndRelease (initial DEFAULT_SETTINGS))) = [1%Z].
Proof.
  split; [|reflexivity].
  destruct (at_most_one_scheduled_tick DEFAULT_SETTINGS dragAndRelease)
    as (_ & Harmed).
  apply (Harmed (rightButtonAt 50) readingView).
  reflexivity.
Defined.

(** * Further properties *)

(** ** What a stretch of moves scrolls *)

(** A move either leaves everything as it is, or scrolls once, by the way
    the anchor travels. *)
Lemma handleMouseMove_cases (evt : MouseEvent) (app : Workspace) (s : State) :
  handleMouseMove evt app s = (s, []) \/
  exists (el : Element) (c1 : list DomCall),
    getScrollableElement app = Some el /\ isDragging s = true /\
    scrollDeltas c1 = [] /\
    handleMouseMove evt app s =
      (set_startY (clientY evt)
         (set_lastVelocityY (- (clientY evt - startY s))%Q
            (set_didDrag true s)),
       c1 ++ [ScrollBy el (- (clientY evt - startY s))%Q]).
Proof.
  unfold handleMouseMove.
  destruct (isDragging s) eqn:Hd; cbn [negb]; [|left; reflexivity].
  destruct (getScrollableElement app) as [el|]; [|left; reflexivity].
  destruct (didDrag s) eqn:Hg; cbn [negb].
  - cbv beta iota. rewrite Hg. right. exists el, [].
    repeat split. destruct s; simpl in *; subst; reflexivity.
  - destruct (Qltb DRAG_THRESHOLD (Qabs (clientY evt - startY s))).
    + right. exists el, [ClassListAdd]. repeat split.
    + cbv beta iota. rewrite Hg. left. reflexivity.
Qed.

Lemma Qsum_app (l1 l2 : list Q) : (Qsum (l1 ++ l2) == Qsum l1 + Qsum l2)%Q.
Proof.
  induction l1 as [|x l1 IH]; simpl.
  - lra.
  - rewrite IH. lra.
Qed.

Lemma run_moves_telescope (ms : list (MouseEvent * Workspace)) :
  forall s : State,
    (Qsum (scrollDeltas (snd (run (moves ms) s)))
     == startY s - startY (fst (run (moves ms) s)))%Q.
Proof.
  induction ms as [|m ms IH]; intros s.
  - simpl. lra.
  - rewrite moves_cons. cbn [run dispatch].
    destruct (handleMouseMove_cases (fst m) (snd m) s)
      as [Hsame | (el & c1 & _ & _ & Hc1 & Hmove)].
    + rewrite Hsame. specialize (IH s).
      destruct (run (moves ms) s) as [s2 c2]. exact IH.
    + rewrite Hmove.
      specialize (IH (set_startY (clientY (fst m))
                        (set_lastVelocityY (- (clientY (fst m) - startY s))%Q
                           (set_didDrag true s)))).
      destruct (run (moves ms) _) as [s2 c2]. cbn [fst snd] in *.
      rewrite !scrollDeltas_app, Hc1. cbn [scrollDeltas List.app Qsum].
      rewrite IH. cbn [startY set_startY]. lra.
Qed.

(** X1.  The content follows the pointer.  Over any stretch of pointer
    moves, whatever targets they find, the deltas scrolled add up to the
    way the anchor has travelled, negated; in a confirmed drag whose last
    move finds a scroll target that is the distance from the anchor the
    stretch began with to the pointer, the first 5 px included. *)
Theorem drag_scroll_follows_pointer
    (s : State) (ms : list (MouseEvent * Workspace)) :
  (Qsum (scrollDeltas (snd (run (moves ms) s)))
   == startY s - startY (fst (run (moves ms) s)))%Q /\
  forall (m : MouseEvent * Workspace),
    isDragging s = true ->
    didDrag (fst (run (moves ms) s)) = true ->
    getScrollableElement (snd m) <> None ->
    (Qsum (scrollDeltas (snd (run (moves (ms ++ [m])) s)))
     == - (clientY (fst m) - startY s))%Q.
Proof.
  split; [apply run_moves_telescope|].
  intros m Hd Hg Hel.
  rewrite (run_moves_telescope (ms ++ [m]) s).
  rewrite moves_app, run_app. cbn [fst]. cbn [moves map run dispatch].
  assert (Hd' : isDragging (fst (run (moves ms) s)) = true).
  { clear Hg. revert s Hd. induction ms as [|m' ms IH]; intros s Hd; [exact Hd|].
    rewrite moves_cons. cbn [run dispatch].
    destruct (handleMouseMove_cases (fst m') (snd m') s)
      as [Hsame | (el & c1 & _ & _ & _ & Hmove)].
    - rewrite Hsame. specialize (IH s Hd).
      destruct (run (moves ms) s). exact IH.
    - rewrite Hmove.
      specialize (IH (set_startY (clientY (fst m'))
                        (set_lastVelocityY (- (clientY (fst m') - startY s))%Q
                           (set_didDrag true s))) Hd).
      destruct (run (moves ms) _). exact IH. }
  destruct (getScrollableElement (snd m)) as [el|] eqn:Eel; [|contradiction].
  rewrite (handleMouseMove_dragging (fst m) (snd m) _ el Hd' Hg Eel).
  cbn [fst startY set_startY]. lra.
Qed.

Lemma drag_scroll_follows_pointer_witness :
  (Qsum (scrollDeltas
           (snd (run (moves ([(rightButtonAt 103, sourceView);
                              (rightButtonAt 90, None);
                              (rightButtonAt 88, sourceView)]
                             ++ [(rightButtonAt 70, readingView)]))
                   (fst (handleMouseDown (rightButtonAt 100) sourceView
                           (initial DEFAULT_SETTINGS))))))
   == - (70 - 100))%Q.
Proof.
  destruct (drag_scroll_follows_pointer
              (fst (handleMouseDown (rightButtonAt 100) sourceView
                      (initial DEFAULT_SETTINGS)))
              [(rightButtonAt 103, sourceView);
               (rightButtonAt 90, None);
               (rightButtonAt 88, sourceView)]) as (_ & Hlast).
  apply (Hlast (rightButtonAt 70, readingView));
    [reflexivity | reflexivity | discriminate].
Defined.

(** ** How far and how long a glide goes *)

Lemma inertiaRun_telescope (apps : list Workspace) :
  forall s : State,
    frames_ok s -> running s ->
    Forall (fun app => getScrollableElement app <> None) apps ->
    (forall k : nat, (k < length apps)%nat ->
       (1 <= Qabs (lastVelocityY s * friction (settings s) ^ Z.of_nat k))%Q) ->
    (Qsum (scrollDeltas (snd (inertiaRun apps s))) * (1 - friction (settings s))
     == lastVelocityY s - lastVelocityY (fst (inertiaRun apps s)))%Q.
Proof.
  induction apps as [|app apps IH]; intros s Hok Hrun Hres Hbig.
  - cbn [inertiaRun fst snd scrollDeltas Qsum]. lra.
  - inversion Hres as [|? ? Hel Hres']; subst.
    destruct (getScrollableElement app) as [el|] eqn:Eel; [|congruence].
    assert (Hv0 : (1 <= Qabs (lastVelocityY s))%Q).
    { specialize (Hbig 0%nat ltac:(simpl; lia)).
      change (friction (settings s) ^ Z.of_nat 0)%Q with 1%Q in Hbig.
      rewrite Qmult_1_r in Hbig. exact Hbig. }
    destruct (animationFrame_continues app s el Hok Hrun Eel Hv0)
      as (Hc & Hok1 & Hrun1 & Hv1 & Hs1 & _).
    cbn [inertiaRun].
    destruct (animationFrame app s) as [s1 c1] eqn:E1.
    cbn [fst snd] in Hc, Hok1, Hrun1, Hv1, Hs1.
    assert (Hbig1 : forall k : nat, (k < length apps)%nat ->
              (1 <= Qabs (lastVelocityY s1 * friction (settings s1) ^ Z.of_nat k))%Q).
    { intros k Hk. rewrite Hv1, Hs1.
      specialize (Hbig (S k) ltac:(simpl; lia)).
      rewrite Qpower_succ_nat in Hbig.
      rewrite <- Qmult_assoc. exact Hbig. }
    specialize (IH s1 Hok1 Hrun1 Hres' Hbig1).
    destruct (inertiaRun apps s1) as [s2 c2]. cbn [fst snd] in *.
    rewrite Hc. cbn [List.app scrollDeltas Qsum].
    rewrite Hs1, Hv1 in IH.
    rewrite Qmult_plus_distr_l, IH. ring.
Qed.

(** X2.  The distance of a glide.  While the run goes on (every tick
    finds a scroll target and a velocity of magnitude at least 1), the
    deltas scrolled over [n] ticks, times [1 - friction], add up to the
    seed velocity less the velocity that is left, which is
    [v0 * (1 - friction^n)]. *)
Theorem glide_distance (s : State) (apps : list Workspace) :
  frames_ok s -> running s ->
  Forall (fun app => getScrollableElement app <> None) apps ->
  (forall k : nat, (k < length apps)%nat ->
     (1 <= Qabs (lastVelocityY s * friction (settings s) ^ Z.of_nat k))%Q) ->
  let f := friction (settings s) in
  let total := Qsum (scrollDeltas (snd (inertiaRun apps s))) in
  (total * (1 - f) == lastVelocityY s - lastVelocityY (fst (inertiaRun apps s)))%Q /\
  (total * (1 - f) == lastVelocityY s * (1 - f ^ Z.of_nat (length apps)))%Q.
Proof.
  intros Hok Hrun Hres Hbig f total.
  pose proof (inertiaRun_telescope apps s Hok Hrun Hres Hbig) as Ht.
  destruct (inertiaRun_geometric apps s Hok Hrun Hres Hbig)
    as (_ & _ & _ & Hv & _).
  fold f in Ht, Hv. fold total in Ht.
  split; [exact Ht|].
  rewrite Ht, Hv. ring.
Qed.

Lemma glide_distance_witness :
  (Qsum (scrollDeltas
           (snd (inertiaRun [sourceView; readingView; sourceView; sourceView]
                   (fst (run dragAndRelease (initial halving))))))
   * (1 - (1 # 2))
   == 10 * (1 - (1 # 2) ^ 4))%Q.
Proof.
  assert (Hok : frames_ok (fst (run dragAndRelease (initial halving)))).
  { apply run_ok, initial_ok. }
  assert (Hrun : running (fst (run dragAndRelease (initial halving)))).
  { exists 1%Z. repeat split. discriminate. }
  assert (Hres : Forall (fun app => getScrollableElement app <> None)
                        [sourceView; readingView; sourceView; sourceView]).
  { repeat constructor; discriminate. }
  assert (Hbig : forall k : nat,
             (k < length [sourceView; readingView; sourceView; sourceView])%nat ->
             (1 <= Qabs (lastVelocityY (fst (run dragAndRelease (initial halving)))
                         * friction (settings (fst (run dragAndRelease (initial halving))))
                           ^ Z.of_nat k))%Q).
  { intros [|[|[|[|k]]]] Hk; [vm_compute; discriminate ..|simpl in Hk; lia]. }
  destruct (glide_distance (fst (run dragAndRelease (initial halving)))
              [sourceView; readingView; sourceView; sourceView]
              Hok Hrun Hres Hbig) as (_ & Hclosed).
  rewrite Hclosed. vm_compute. reflexivity.
Defined.

(** Bernoulli's bound for the growth of [(100/99)^n], cleared of its
    denominator. *)
Lemma growth_bound (n : nat) :
  (inject_Z (Z.of_nat n) + 99 <= 99 * (100 # 99) ^ Z.of_nat n)%Q.
Proof.
  induction n as [|n IH].
  - vm_compute. discriminate.
  - rewrite Qpower_succ_nat, Nat2Z.inj_succ. unfold Z.succ.
    rewrite inject_Z_plus.
    assert (Hn : (0 <= inject_Z (Z.of_nat n))%Q).
    { change 0%Q with (inject_Z 0). rewrite <- Zle_Qle. lia. }
    set (x := inject_Z (Z.of_nat n)) in *.
    set (p := ((100 # 99) ^ Z.of_nat n)%Q) in *.
    change (inject_Z 1) with 1%Q. lra.
Qed.

Lemma glideBound_exceeds (v : Q) :
  (Qabs v < (100 # 99) ^ Z.of_nat (glideBound v))%Q.
Proof.
  pose proof (growth_bound (glideBound v)) as Hg.
  unfold glideBound in *.
  assert (Hc : (99 * Qabs v <= inject_Z (Qceiling (99 * Qabs v)))%Q)
    by apply Qle_ceiling.
  pose proof (Qabs_nonneg v) as Hnn.
  assert (Hpos : (0 <= Qceiling (99 * Qabs v))%Z).
  { rewrite Zle_Qle. eapply Qle_trans; [|exact Hc].
    change (inject_Z 0) with 0%Q. lra. }
  rewrite Z2Nat.id in Hg |- * by exact Hpos.
  set (c := inject_Z (Qceiling (99 * Qabs v))) in *.
  set (p := ((100 # 99) ^ Qceiling (99 * Qabs v))%Q) in *.
  set (a := Qabs v) in *.
  lra.
Qed.

(** With friction of magnitude at most 0.99, a glide whose velocity is
    below [(100/99)^n] has ended after more than [n] frames, having
    scrolled at most [n] times. *)
Lemma glide_stops_within (n : nat) :
  forall (s : State) (apps : list Workspace),
    frames_ok s -> running s ->
    (Qabs (friction (settings s)) <= 99 # 100)%Q ->
    (Qabs (lastVelocityY s) < (100 # 99) ^ Z.of_nat n)%Q ->
    (n < length apps)%nat ->
    pendingFrames (fst (inertiaRun apps s)) = [] /\
    animationFrameId (fst (inertiaRun apps s)) = None /\
    lastVelocityY (fst (inertiaRun apps s)) = 0%Q /\
    (length (scrollDeltas (snd (inertiaRun apps s))) <= n)%nat.
Proof.
  induction n as [|n IH]; intros s apps Hok Hrun Hf Hv Hlen;
    (destruct apps as [|app apps]; [simpl in Hlen; lia|]);
    cbn [inertiaRun].
  - change ((100 # 99) ^ Z.of_nat 0)%Q with 1%Q in Hv.
    destruct (animationFrame_terminates app s Hok Hrun (or_intror Hv))
      as (Hc & Hid & Hp & Hz & _).
    destruct (animationFrame app s) as [s1 c1]. cbn [fst snd] in *.
    rewrite (inertiaRun_idle apps s1 Hp), Hc. cbn [fst snd List.app scrollDeltas length].
    repeat split; try assumption. lia.
  - assert (Hstop :
      getScrollableElement app = None \/ (Qabs (lastVelocityY s) < 1)%Q ->
      pendingFrames (fst (let '(s1, c1) := animationFrame app s in
                         let '(s2, c2) := inertiaRun apps s1 in (s2, c1 ++ c2))) = [] /\
      animationFrameId (fst (let '(s1, c1) := animationFrame app s in
                         let '(s2, c2) := inertiaRun apps s1 in (s2, c1 ++ c2))) = None /\
      lastVelocityY (fst (let '(s1, c1) := animationFrame app s in
                         let '(s2, c2) := inertiaRun apps s1 in (s2, c1 ++ c2))) = 0%Q /\
      (length (scrollDeltas (snd (let '(s1, c1) := animationFrame app s in
                         let '(s2, c2) := inertiaRun apps s1 in (s2, c1 ++ c2)))) <= S n)%nat).
    { intros Hcase.
      destruct (animationFrame_terminates app s Hok Hrun Hcase)
        as (Hc & Hid & Hp & Hz & _).
      destruct (animationFrame app s) as [s1 c1]. cbn [fst snd] in *.
      rewrite (inertiaRun_idle apps s1 Hp), Hc.
      cbn [fst snd List.app scrollDeltas length].
      repeat split; try assumption. lia. }
    destruct (getScrollableElement app) as [el|] eqn:Eel;
      [|apply Hstop; left; reflexivity].
    destruct (Qlt_le_dec (Qabs (lastVelocityY s)) 1) as [Hlt|Hge];
      [apply Hstop; right; exact Hlt|].
    clear Hstop.
    destruct (animationFrame_continues app s el Hok Hrun Eel Hge)
      as (Hc & Hok1 & Hrun1 & Hv1 & Hs1 & _).
    destruct (animationFrame app s) as [s1 c1]. cbn [fst snd] in *.
    assert (Hsmall : (Qabs (lastVelocityY s1) < (100 # 99) ^ Z.of_nat n)%Q).
    { rewrite Hv1, Qabs_Qmult.
      rewrite Qpower_succ_nat in Hv.
      pose proof (Qabs_nonneg (lastVelocityY s)) as Hnn.
      set (a := Qabs (lastVelocityY s)) in *.
      set (b := Qabs (friction (settings s))) in *.
      set (p := ((100 # 99) ^ Z.of_nat n)%Q) in *.
      assert (Hab : (a * b <= a * (99 # 100))%Q).
      { rewrite !(Qmult_comm a). apply Qmult_le_compat_r; assumption. }
      lra. }
    rewrite <- Hs1 in Hf.
    assert (Hlen' : (n < length apps)%nat) by (simpl in Hlen; lia).
    destruct (IH s1 apps Hok1 Hrun1 Hf Hsmall Hlen') as (Hp & Hid & Hz & Hn).
    destruct (inertiaRun apps s1) as [s2 c2]. cbn [fst snd] in *.
    rewrite Hc. cbn [List.app scrollDeltas length].
    repeat split; try assumption. lia.
Qed.

(** X3.  A glide ends.  With a friction of magnitude at most 0.99 (the
    slider stops there; the default is 0.92), an active run has ended
    once more than [glideBound v0] frames have passed, whatever the
    frames find: nothing is scheduled, the handle is cleared, the
    velocity is zero, and at most [glideBound v0] scrolls were made. *)
Theorem glide_ends (s : State) (apps : list Workspace) :
  frames_ok s -> running s ->
  (Qabs (friction (settings s)) <= 99 # 100)%Q ->
  (glideBound (lastVelocityY s) < length apps)%nat ->
  pendingFrames (fst (inertiaRun apps s)) = [] /\
  animationFrameId (fst (inertiaRun apps s)) = None /\
  lastVelocityY (fst (inertiaRun apps s)) = 0%Q /\
  (length (scrollDeltas (snd (inertiaRun apps s))) <= glideBound (lastVelocityY s))%nat.
Proof.
  intros Hok Hrun Hf Hlen.
  apply glide_stops_within; try assumption.
  apply glideBound_exceeds.
Qed.

Lemma glide_ends_witness :
  pendingFrames
    (fst (inertiaRun (repeat sourceView 51) (gliding DEFAULT_SETTINGS (1 # 2)))) = [].
Proof.
  apply (glide_ends (gliding DEFAULT_SETTINGS (1 # 2)) (repeat sourceView 51)).
  - apply gliding_ok.
  - apply gliding_ok.
  - vm_compute. discriminate.
  - vm_compute. lia.
Defined.

Lemma Qabs_power_ge_1 (f : Q) (k : nat) :
  (1 <= Qabs f)%Q -> (1 <= Qabs (f ^ Z.of_nat k))%Q.
Proof.
  intros Hf. induction k as [|k IH].
  - vm_compute. discriminate.
  - rewrite Qpower_succ_nat, Qabs_Qmult.
    set (a := Qabs f) in *. set (b := Qabs (f ^ Z.of_nat k)) in *.
    assert (H : (0 <= (a - 1) * (b - 1))%Q).
    { apply Qmult_le_0_compat; lra. }
    lra.
Qed.

(** X4.  A friction of magnitude 1 or more, which loading does not rule
    out, gives a glide that does not end by itself: from a seed of
    magnitude at least 1, after any number of frames that find a scroll
    target the run is still scheduled, every frame has scrolled, and the
    velocity is still at least 1 in magnitude. *)
Theorem glide_endless (s : State) (apps : list Workspace) :
  frames_ok s -> running s ->
  (1 <= Qabs (friction (settings s)))%Q ->
  (1 <= Qabs (lastVelocityY s))%Q ->
  Forall (fun app => getScrollableElement app <> None) apps ->
  running (fst (inertiaRun apps s)) /\
  length (scrollDeltas (snd (inertiaRun apps s))) = length apps /\
  (1 <= Qabs (lastVelocityY (fst (inertiaRun apps s))))%Q.
Proof.
  intros Hok Hrun Hf Hv Hres.
  assert (Hbig : forall k : nat,
             (1 <= Qabs (lastVelocityY s * friction (settings s) ^ Z.of_nat k))%Q).
  { intros k. rewrite Qabs_Qmult.
    pose proof (Qabs_power_ge_1 (friction (settings s)) k Hf) as Hk.
    set (a := Qabs (lastVelocityY s)) in *.
    set (b := Qabs (friction (settings s) ^ Z.of_nat k)) in *.
    assert (H : (0 <= (a - 1) * (b - 1))%Q).
    { apply Qmult_le_0_compat; lra. }
    lra. }
  destruct (inertiaRun_geometric apps s Hok Hrun Hres (fun k _ => Hbig k))
    as (_ & Hrun' & _ & Hvn & Hlen & _).
  split; [exact Hrun'|]. split; [exact Hlen|].
  rewrite Hvn. apply Hbig.
Qed.

Lemma glide_endless_witness :
  length (scrollDeltas
            (snd (inertiaRun (repeat sourceView 40)
                    (gliding (mkSettings 2 ModNone 1) 3)))) = 40%nat.
Proof.
  apply (glide_endless (gliding (mkSettings 2 ModNone 1) 3) (repeat sourceView 40)).
  - apply gliding_ok.
  - apply gliding_ok.
  - vm_compute. discriminate.
  - vm_compute. discriminate.
  - apply List.Forall_forall. intros app Hin.
    apply repeat_spec in Hin. subst app. discriminate.
Defined.

(** ** Drag and glide do not overlap *)

Lemma fireFrame_isDragging h app s :
  isDragging (fst (fireFrame h app s)) = isDragging s.
Proof.
  unfold fireFrame. destruct (existsb (Z.eqb h) (pendingFrames s)); [|reflexivity].
  unfold inertiaStep.
  assert (Hstop : isDragging (stopInertiaScroll (cancelAnimationFrame h s))
                  = isDragging s).
  { destruct (stopInertiaScroll_fields (cancelAnimationFrame h s))
      as (_ & _ & H & _). exact H. }
  destruct (getScrollableElement app); [|exact Hstop].
  destruct (Qltb (Qabs (lastVelocityY (cancelAnimationFrame h s))) 1);
    [exact Hstop | reflexivity].
Qed.

Lemma dispatch_drag_excludes_glide e s :
  frames_ok s -> drag_excludes_glide s ->
  drag_excludes_glide (fst (dispatch e s)).
Proof.
  intros Hok Hinv. unfold drag_excludes_glide in *.
  destruct e as [evt app|evt app|evt|evt|h app|b|m|f]; cbn [dispatch].
  - unfold handleMouseDown.
    destruct (negb (button evt =? mouseButton (settings s))%Z); [exact Hinv|].
    destruct (modifierRejects (settings s) evt); [exact Hinv|].
    destruct (stopInertiaScroll_stops s Hok) as (_ & Hp & _).
    destruct (negb (inLeafContent evt)); [intros _; exact Hp|].
    destruct (getScrollableElement app); intros _; exact Hp.
  - destruct (handleMouseMove_cases evt app s)
      as [Hsame | (el & c1 & _ & Hd & _ & Hmove)].
    + rewrite Hsame. exact Hinv.
    + rewrite Hmove. intros _. apply Hinv. exact Hd.
  - unfold handleMouseUp.
    destruct (negb (button evt =? mouseButton (settings s))%Z || negb (isDragging s));
      [exact Hinv|].
    cbv zeta. destruct (didDrag (set_isDragging false s)).
    + cbn [fst].
      destruct (startInertiaScroll_running_fields (set_isDragging false s))
        as (_ & _ & H & _).
      rewrite H. discriminate.
    + discriminate.
  - unfold handleContextMenu. destruct (didDrag s); exact Hinv.
  - rewrite fireFrame_isDragging. intros Hd.
    unfold fireFrame. rewrite (Hinv Hd). simpl. apply Hinv. exact Hd.
  - exact Hinv.
  - exact Hinv.
  - exact Hinv.
Qed.

Lemma run_drag_excludes_glide (es : list Event) :
  forall s : State,
    frames_ok s -> drag_excludes_glide s ->
    drag_excludes_glide (fst (run es s)).
Proof.
  induction es as [|e es IH]; intros s Hok Hinv; [exact Hinv|].
  cbn [run].
  pose proof (dispatch_ok e s Hok) as Hok1.
  pose proof (dispatch_drag_excludes_glide e s Hok Hinv) as Hinv1.
  destruct (dispatch e s) as [s1 c1]. specialize (IH s1 Hok1 Hinv1).
  destruct (run es s1) as [s2 c2]. exact IH.
Qed.

(** X5.  After any sequence of events, while a gesture is under way
    ([isDragging]) no inertia callback is scheduled, so no frame can
    scroll: glide and drag never scroll at the same time. *)
Theorem no_glide_during_drag (cfg : DragToScrollSettings) (es : list Event) :
  let s := fst (run es (initial cfg)) in
  isDragging s = true ->
  pendingFrames s = [] /\
  forall (h : Z) (app : Workspace), fireFrame h app s = (s, []).
Proof.
  intros s Hd.
  assert (Hp : pendingFrames s = []).
  { apply (run_drag_excludes_glide es (initial cfg)).
    - apply initial_ok.
    - intros _. reflexivity.
    - exact Hd. }
  split; [exact Hp|].
  intros h app. unfold fireFrame. rewrite Hp. reflexivity.
Qed.

Lemma no_glide_during_drag_witness :
  pendingFrames
    (fst (run (dragAndRelease ++ [EMouseDown (rightButtonAt 40) readingView])
            (initial DEFAULT_SETTINGS))) = [].
Proof.
  apply (no_glide_during_drag DEFAULT_SETTINGS
           (dragAndRelease ++ [EMouseDown (rightButtonAt 40) readingView])).
  reflexivity.
Defined.

(** ** Clicks, releases and the context menu *)

Lemma contextmenu_cleared (evt : MouseEvent) (s : State) :
  didDrag (fst (handleContextMenu evt s)) = false.
Proof.
  unfold handleContextMenu. destruct (didDrag s) eqn:Hg; [reflexivity|exact Hg].
Qed.

(** X6.  A click is left alone.  A press that arms, moves that stay
    within the threshold (or find no scroll target), the release and the
    context-menu event after it: the only call made is the
    [preventDefault] of the press; no glide is started, nothing is
    scrolled, the context menu is not suppressed, and the plugin is idle
    again with a zero velocity. *)
Theorem click_starts_nothing
    (s : State) (evt0 : MouseEvent) (app0 : Workspace)
    (ms : list (MouseEvent * Workspace)) (up menu : MouseEvent) :
  frames_ok s ->
  arms evt0 app0 s = true ->
  Forall (fun m => getScrollableElement (snd m) = None \/
                   (Qabs (clientY (fst m) - clientY evt0) <= 5)%Q) ms ->
  button up = mouseButton (settings s) ->
  let r := run (EMouseDown evt0 app0
                  :: moves ms ++ [EMouseUp up; EContextMenu menu]) s in
  snd r = [PreventDefault] /\
  isDragging (fst r) = false /\ didDrag (fst r) = false /\
  pendingFrames (fst r) = [] /\ animationFrameId (fst r) = None /\
  lastVelocityY (fst r) = 0%Q.
Proof.
  intros Hok Harm Hms Hup r. subst r.
  cbn [run dispatch]. rewrite (handleMouseDown_armed evt0 app0 s Harm).
  destruct (stopInertiaScroll_stops s Hok) as (Hid & Hp & _ & _ & Hs & _).
  set (s0 := set_lastVelocityY 0%Q
               (set_didDrag false
                  (set_startY (clientY evt0)
                     (set_isDragging true (stopInertiaScroll s))))).
  assert (Hstay : run (moves ms) s0 = (s0, [])).
  { apply run_moves_armed_stays; [reflexivity|].
    revert Hms. apply List.Forall_impl. intros m. apply within_not_crosses. }
  rewrite run_app, Hstay. cbn [fst snd run dispatch List.app].
  assert (Hrel : handleMouseUp up s0 = (set_isDragging false s0, [])).
  { unfold handleMouseUp.
    change (settings s0) with (settings (stopInertiaScroll s)).
    rewrite Hs, Hup, Z.eqb_refl. reflexivity. }
  rewrite Hrel. cbn [handleContextMenu didDrag set_isDragging s0 set_lastVelocityY
                       set_didDrag fst snd List.app].
  repeat split; assumption.
Qed.

Lemma click_starts_nothing_witness :
  snd (run (EMouseDown (rightButtonAt 100) sourceView
              :: moves [(rightButtonAt 102, sourceView); (rightButtonAt 97, sourceView)]
                 ++ [EMouseUp (rightButtonAt 97); EContextMenu (rightButtonAt 97)])
         (fst (run dragAndRelease (initial DEFAULT_SETTINGS))))
  = [PreventDefault].
Proof.
  apply (click_starts_nothing
           (fst (run dragAndRelease (initial DEFAULT_SETTINGS)))
           (rightButtonAt 100) sourceView
           [(rightButtonAt 102, sourceView); (rightButtonAt 97, sourceView)]
           (rightButtonAt 97) (rightButtonAt 97)).
  - apply run_ok, initial_ok.
  - reflexivity.
  - constructor; [right; vm_compute; discriminate|].
    constructor; [right; vm_compute; discriminate|]. constructor.
  - reflexivity.
Defined.

(** X7.  The suppression of the context menu is spent by one event: a
    burst of context-menu events does what its first event does, the
    others make no call and change nothing. *)
Theorem contextmenu_burst (s : State) (evt : MouseEvent) (evts : list MouseEvent) :
  run (map EContextMenu (evt :: evts)) s = handleContextMenu evt s.
Proof.
  cbn [map run dispatch].
  assert (Hrest : forall t : State,
             didDrag t = false -> run (map EContextMenu evts) t = (t, [])).
  { induction evts as [|e evts IH]; intros t Ht; [reflexivity|].
    cbn [map run dispatch]. unfold handleContextMenu at 1. rewrite Ht.
    rewrite (IH t Ht). reflexivity. }
  pose proof (contextmenu_cleared evt s) as Hc.
  destruct (handleContextMenu evt s) as [s1 c1]. cbn [fst] in Hc.
  rewrite (Hrest s1 Hc). rewrite app_nil_r. reflexivity.
Qed.

(** X8.  The glide takes over where the drag left off.  When a confirmed
    drag is released right after a move that scrolled by [d], the first
    frame scrolls its target by the same [d] and leaves the velocity
    [d * friction] if [d] has magnitude at least 1, and ends the run
    without a scroll otherwise. *)
Theorem release_hands_last_delta_to_glide
    (s : State) (evt up : MouseEvent) (app app2 : Workspace) (el el2 : Element) :
  frames_ok s ->
  isDragging s = true -> didDrag s = true ->
  getScrollableElement app = Some el ->
  getScrollableElement app2 = Some el2 ->
  button up = mouseButton (settings s) ->
  let d := (- (clientY evt - startY s))%Q in
  let s1 := fst (handleMouseMove evt app s) in
  let s2 := fst (handleMouseUp up s1) in
  snd (handleMouseMove evt app s) = [ScrollBy el d] /\
  snd (handleMouseUp up s1) = [ClassListRemove] /\
  ((1 <= Qabs d)%Q ->
   snd (animationFrame app2 s2) = [ScrollBy el2 d] /\
   lastVelocityY (fst (animationFrame app2 s2)) = (d * friction (settings s))%Q /\
   running (fst (animationFrame app2 s2))) /\
  ((Qabs d < 1)%Q ->
   snd (animationFrame app2 s2) = [] /\
   pendingFrames (fst (animationFrame app2 s2)) = [] /\
   lastVelocityY (fst (animationFrame app2 s2)) = 0%Q).
Proof.
  intros Hok Hd Hg Hel Hel2 Hup d s1 s2. subst s2 s1.
  rewrite (handleMouseMove_dragging evt app s el Hd Hg Hel). cbn [fst snd].
  fold d.
  set (s1 := set_startY (clientY evt) (set_lastVelocityY d s)).
  assert (Hupd : handleMouseUp up s1
                 = (startInertiaScroll (set_isDragging false s1), [ClassListRemove])).
  { unfold handleMouseUp.
    change (settings s1) with (settings s). rewrite Hup, Z.eqb_refl.
    change (isDragging s1) with (isDragging s). rewrite Hd. cbn [negb orb].
    change (didDrag (set_isDragging false s1)) with (didDrag s). rewrite Hg.
    reflexivity. }
  rewrite Hupd. cbn [fst snd].
  assert (Hok1 : frames_ok (set_isDragging false s1)).
  { revert Hok. apply frames_ok_ext; reflexivity. }
  destruct (startInertiaScroll_running _ Hok1)
    as (Hok2 & Hrun2 & Hv2 & Hs2 & _).
  change (lastVelocityY (set_isDragging false s1)) with d in Hv2.
  change (settings (set_isDragging false s1)) with (settings s) in Hs2.
  split; [reflexivity|]. split; [reflexivity|]. split.
  - intros Hbig. rewrite <- Hv2 in Hbig.
    destruct (animationFrame_continues app2 _ el2 Hok2 Hrun2 Hel2 Hbig)
      as (Hc & _ & Hrun3 & Hv3 & _).
    rewrite Hv2 in Hc. rewrite Hv2, Hs2 in Hv3.
    repeat split; assumption.
  - intros Hsmall. rewrite <- Hv2 in Hsmall.
    destruct (animationFrame_terminates app2 _ Hok2 Hrun2 (or_intror Hsmall))
      as (Hc & _ & Hp & Hz & _).
    repeat split; assumption.
Qed.

Lemma release_hands_last_delta_to_glide_witness :
  snd (animationFrame readingView
         (fst (handleMouseUp (rightButtonAt 93)
                 (fst (handleMouseMove (rightButtonAt 93) sourceView
                         (draggingAt DEFAULT_SETTINGS 100))))))
  = [ScrollBy 2%nat (- (93 - 100))%Q].
Proof.
  destruct (release_hands_last_delta_to_glide
              (draggingAt DEFAULT_SETTINGS 100) (rightButtonAt 93) (rightButtonAt 93)
              sourceView readingView 1%nat 2%nat)
    as (_ & _ & Hbig & _).
  - exact (initial_ok DEFAULT_SETTINGS).
  - reflexivity.
  - reflexivity.
  - reflexivity.
  - reflexivity.
  - reflexivity.
  - apply Hbig. vm_compute. discriminate.
Defined.

(** X9.  Unloading leaves nothing behind in the scheduler.  After any
    sequence of events, [onunload] takes the class off the body and
    leaves no callback scheduled, no handle and a zero velocity, so that
    no frame runs the plugin's code afterwards. *)
Theorem onunload_leaves_nothing_scheduled
    (cfg : DragToScrollSettings) (es : list Event) :
  let s := fst (run es (initial cfg)) in
  snd (onunload s) = [ClassListRemove] /\
  pendingFrames (fst (onunload s)) = [] /\
  animationFrameId (fst (onunload s)) = None /\
  lastVelocityY (fst (onunload s)) = 0%Q /\
  forall (h : Z) (app : Workspace),
    fireFrame h app (fst (onunload s)) = (fst (onunload s), []).
Proof.
  intros s.
  assert (Hok : frames_ok s) by (apply run_ok, initial_ok).
  destruct (stopInertiaScroll_stops s Hok) as (Hid & Hp & Hv & _).
  unfold onunload. cbn [fst snd].
  repeat split; try assumption.
  intros h app. unfold fireFrame. rewrite Hp. reflexivity.
Qed.

(** ** Saving and loading *)

Lemma toObject_same_keys (cfg cfg' : DragToScrollSettings) (field : string) :
  toObject cfg !! field = None -> toObject cfg' !! field = None.
Proof.
  unfold toObject. rewrite !lookup_insert_None. tauto.
Qed.

(** X10.  Settings that were saved load back as they were: after
    [saveSettings], [loadSettings] yields exactly the saved record, every
    field taken from the store and none from the defaults. *)
Theorem settings_save_load_roundtrip (cfg : DragToScrollSettings) :
  loadSettings (saveSettings cfg) = toObject cfg.
Proof.
  unfold saveSettings. rewrite loadSettings_unfold.
  apply map_eq. intros field.
  destruct (toObject cfg !! field) as [v|] eqn:Hv.
  - apply lookup_union_Some_l. exact Hv.
  - rewrite lookup_union_r by exact Hv.
    apply (toObject_same_keys cfg DEFAULT_SETTINGS). exact Hv.
Qed.

(** X11.  Whatever is stored, the loaded settings have all three fields,
    and loading what was loaded changes nothing. *)
Theorem loadSettings_complete_and_stable (data : option (gmap string JsVal)) :
  (is_Some (loadSettings data !! "mouseButton") /\
   is_Some (loadSettings data !! "modifierKey") /\
   is_Some (loadSettings data !! "friction")) /\
  loadSettings (Some (loadSettings data)) = loadSettings data.
Proof.
  split.
  - assert (H : forall field : string,
               is_Some (toObject DEFAULT_SETTINGS !! field) ->
               is_Some (loadSettings data !! field)).
    { intros field Hd. rewrite loadSettings_unfold.
      destruct data as [o|]; [|exact Hd].
      apply lookup_union_is_Some. right. exact Hd. }
    repeat split; apply H; eexists; reflexivity.
  - rewrite !loadSettings_unfold. destruct data as [o|].
    + rewrite <- (assoc_L (∪)), (idemp_L (∪)). reflexivity.
    + apply (idemp_L (∪)).
Qed.

(** ** Which element is scrolled *)

Lemma scrollDeltas_nil_no_scroll (cs : list DomCall) (el : Element) (dy : Q) :
  scrollDeltas cs = [] -> ~ In (ScrollBy el dy) cs.
Proof.
  induction cs as [|c cs IH]; intros Hnil [].
  - subst c. discriminate.
  - destruct c; try discriminate; apply IH; assumption.
Qed.

Lemma dispatch_scrolls_event_target (e : Event) (s : State) (el : Element) (dy : Q) :
  In (ScrollBy el dy) (snd (dispatch e s)) -> eventTarget e = Some el.
Proof.
  destruct e as [evt app|evt app|evt|evt|h app|b|m|f]; cbn [dispatch eventTarget].
  - unfold handleMouseDown.
    destruct (negb (button evt =? mouseButton (settings s))%Z); [intros []|].
    destruct (modifierRejects (settings s) evt); [intros []|].
    destruct (negb (inLeafContent evt)); [intros []|].
    destruct (getScrollableElement app); [|intros []].
    intros [H|[]]. discriminate.
  - destruct (handleMouseMove_cases evt app s)
      as [Hsame | (el' & c1 & Hel & _ & Hc1 & Hmove)].
    + rewrite Hsame. intros [].
    + rewrite Hmove. cbn [snd]. intros H. apply in_app_or in H as [H|[H|[]]].
      * exfalso. exact (scrollDeltas_nil_no_scroll c1 el dy Hc1 H).
      * injection H as <- _. exact Hel.
  - unfold handleMouseUp.
    destruct (negb (button evt =? mouseButton (settings s))%Z || negb (isDragging s));
      [intros []|].
    cbv zeta. destruct (didDrag (set_isDragging false s)); [|intros []].
    intros [H|[]]. discriminate.
  - unfold handleContextMenu. destruct (didDrag s); [|intros []].
    destruct (mouseButton (settings s) =? 2)%Z; [|intros []].
    intros [H|[H|[]]]; discriminate.
  - unfold fireFrame.
    destruct (existsb (Z.eqb h) (pendingFrames s)); [|intros []].
    unfold inertiaStep.
    destruct (getScrollableElement app) as [el'|]; [|intros []].
    destruct (Qltb (Qabs (lastVelocityY (cancelAnimationFrame h s))) 1); [intros []|].
    intros [H|[]]. injection H as <- _. reflexivity.
  - intros [].
  - intros [].
  - intros [].
Qed.

Lemma run_calls_by_event (es : list Event) :
  forall s : State, snd (run es s) = concat (map snd (callsByEvent es s)).
Proof.
  induction es as [|e es IH]; intros s; [reflexivity|].
  cbn [run callsByEvent]. destruct (dispatch e s) as [s1 c1].
  specialize (IH s1). destruct (run es s1) as [s2 c2].
  cbn [snd map concat] in *. rewrite IH. reflexivity.
Qed.

(** X12.  The scroll target is never carried over from one event to the
    next.  Whatever the state, hence whatever came before, every
    [scrollBy] made while an event is handled is made on the element this
    very event resolves from the workspace as it is then; only pointer
    moves and frames resolve one, so presses, releases, context-menu
    events and settings changes scroll nothing.  Over a sequence of events
    the calls are those of its events in order, each event's [scrollBy]
    calls being on its own target. *)
Theorem scrolls_only_resolved_targets :
  (forall (e : Event) (s : State) (el : Element) (dy : Q),
      In (ScrollBy el dy) (snd (dispatch e s)) -> eventTarget e = Some el) /\
  (forall (es : list Event) (s : State),
      snd (run es s) = concat (map snd (callsByEvent es s)) /\
      Forall (fun ec : Event * list DomCall =>
                forall (el : Element) (dy : Q),
                  In (ScrollBy el dy) (snd ec) -> eventTarget (fst ec) = Some el)
             (callsByEvent es s)).
Proof.
  split; [exact dispatch_scrolls_event_target|].
  intros es s. split; [apply run_calls_by_event|].
  revert s. induction es as [|e es IH]; intros s; cbn [callsByEvent];
    [constructor|].
  pose proof (dispatch_scrolls_event_target e s) as He.
  destruct (dispatch e s) as [s1 c1]. constructor; [exact He | apply IH].
Qed.

Lemma scrolls_only_resolved_targets_witness :
  eventTarget (EMouseMove (rightButtonAt 70) readingView) = Some 2%nat.
Proof.
  destruct scrolls_only_resolved_targets as (Hone & _).
  apply (Hone (EMouseMove (rightButtonAt 70) readingView)
              (fst (run [EMouseDown (rightButtonAt 100) sourceView;
                         EMouseMove (rightButtonAt 90) sourceView]
                        (initial DEFAULT_SETTINGS)))
              2%nat (- (70 - 90))%Q).
  left. reflexivity.
Defined.

(** ** Traffic that is not a gesture *)

(** X13.  While no gesture is under way, pointer moves, releases of any
    button and presses of a button other than the configured one, however
    many and in whatever order, change nothing and make no call: no
    default action is suppressed and a glide in progress is not
    disturbed. *)
Theorem foreign_traffic_ignored (s : State) (es : list Event) :
  isDragging s = false ->
  Forall (fun e => foreign (mouseButton (settings s)) e = true) es ->
  run es s = (s, []).
Proof.
  intros Hd. induction 1 as [|e es He _ IH]; [reflexivity|].
  cbn [run].
  assert (Hstep : dispatch e s = (s, [])).
  { destruct e as [evt app|evt app|evt|evt|h app|b|m|f];
      cbn [foreign] in He; try discriminate; cbn [dispatch].
    - unfold handleMouseDown. rewrite He. reflexivity.
    - unfold handleMouseMove. rewrite Hd. reflexivity.
    - unfold handleMouseUp. rewrite Hd, orb_true_r. reflexivity. }
  rewrite Hstep, IH. reflexivity.
Qed.

Lemma foreign_traffic_ignored_witness :
  run [EMouseDown (mkEvent 0 10 false false false true) sourceView;
       EMouseMove (rightButtonAt 60) sourceView;
       EMouseUp (mkEvent 0 60 false false false true);
       EMouseUp (rightButtonAt 60)]
      (fst (run dragAndRelease (initial DEFAULT_SETTINGS)))
  = (fst (run dragAndRelease (initial DEFAULT_SETTINGS)), []).
Proof.
  apply (foreign_traffic_ignored
           (fst (run dragAndRelease (initial DEFAULT_SETTINGS)))).
  - reflexivity.
  - repeat constructor.
Defined.

(** ** The two plugins *)

Lemma gestureFields_stop (s : State) :
  gestureFields (stopInertiaScroll s) = gestureFields s.
Proof.
  destruct (stopInertiaScroll_fields s) as (_ & _ & Hd & Hg & Hy & _).
  unfold gestureFields. rewrite Hd, Hg, Hy. reflexivity.
Qed.

Lemma gestureFields_start (s : State) :
  gestureFields (startInertiaScroll s) = gestureFields s.
Proof.
  destruct (startInertiaScroll_running_fields s) as (_ & _ & Hd & Hg & Hy).
  unfold gestureFields. rewrite Hd, Hg, Hy. reflexivity.
Qed.

Lemma dispatch_mouse_settings (i : Legacy.MouseInput) (s : State) :
  settings (fst (dispatch (toEvent i) s)) = settings s.
Proof.
  destruct i as [evt app|evt app|evt|evt]; cbn [toEvent dispatch].
  - unfold handleMouseDown.
    destruct (negb (button evt =? mouseButton (settings s))%Z); [reflexivity|].
    destruct (modifierRejects (settings s) evt); [reflexivity|].
    destruct (stopInertiaScroll_fields s) as (_ & Hs & _).
    destruct (negb (inLeafContent evt)); [exact Hs|].
    destruct (getScrollableElement app); exact Hs.
  - destruct (handleMouseMove_cases evt app s)
      as [Hsame | (el & c1 & _ & _ & _ & Hmove)].
    + rewrite Hsame. reflexivity.
    + rewrite Hmove. reflexivity.
  - unfold handleMouseUp.
    destruct (negb (button evt =? mouseButton (settings s))%Z || negb (isDragging s));
      [reflexivity|].
    cbv zeta. destruct (didDrag (set_isDragging false s)); [|reflexivity].
    apply (startInertiaScroll_running_fields (set_isDragging false s)).
  - unfold handleContextMenu. destruct (didDrag s); reflexivity.
Qed.

Lemma dispatch_refines_legacy (i : Legacy.MouseInput) (s : State) :
  mouseButton (settings s) = 2%Z ->
  modifierKey (settings s) = ModNone ->
  unmodified i = true ->
  gestureFields (fst (dispatch (toEvent i) s))
  = fst (Legacy.dispatch i (gestureFields s)) /\
  map legacyCall (snd (dispatch (toEvent i) s))
  = snd (Legacy.dispatch i (gestureFields s)).
Proof.
  intros Hb Hm Hu.
  destruct i as [evt app|evt app|evt|evt];
    cbn [toEvent dispatch Legacy.dispatch unmodified] in *.
  - unfold handleMouseDown, Legacy.handleMouseDown, modifierRejects.
    rewrite Hb, Hm. apply negb_true_iff in Hu. rewrite Hu.
    destruct (negb (button evt =? 2)%Z); [split; reflexivity|].
    cbn [ModifierKey_eqb andb orb].
    destruct (negb (inLeafContent evt));
      [split; [apply gestureFields_stop | reflexivity]|].
    destruct (getScrollableElement app);
      [split; reflexivity | split; [apply gestureFields_stop | reflexivity]].
  - unfold handleMouseMove, Legacy.handleMouseMove, gestureFields.
    destruct s as [cfg dragging y dragged v id pending next].
    cbn [isDragging startY didDrag
         Legacy.isDragging Legacy.didDrag Legacy.startY].
    destruct dragging; cbn [negb]; [|split; reflexivity].
    destruct (getScrollableElement app) as [el|]; [|split; reflexivity].
    change Legacy.DRAG_THRESHOLD with DRAG_THRESHOLD.
    destruct dragged; cbn [negb].
    + split; reflexivity.
    + destruct (Qltb DRAG_THRESHOLD (Qabs (clientY evt - y)));
        split; reflexivity.
  - unfold handleMouseUp, Legacy.handleMouseUp.
    rewrite Hb. change (Legacy.isDragging (gestureFields s)) with (isDragging s).
    destruct (negb (button evt =? 2)%Z || negb (isDragging s)); [split; reflexivity|].
    cbv zeta.
    change (didDrag (set_isDragging false s)) with (didDrag s).
    change (Legacy.didDrag (Legacy.mkState false (Legacy.startY (gestureFields s))
                              (Legacy.didDrag (gestureFields s))))
      with (didDrag s).
    destruct (didDrag s) eqn:Hg; cbn [fst snd map legacyCall].
    + split; [|reflexivity]. rewrite gestureFields_start.
      unfold gestureFields. cbn. rewrite Hg. reflexivity.
    + split; [|reflexivity]. unfold gestureFields. cbn. rewrite Hg. reflexivity.
  - unfold handleContextMenu, Legacy.handleContextMenu.
    rewrite Hb. change (Legacy.didDrag (gestureFields s)) with (didDrag s).
    destruct (didDrag s); split; reflexivity.
Qed.

(** X14.  With the right button and no modifier configured, the plugin
    with settings and inertia treats mouse input whose presses hold no
    modifier key as the first plugin of the file does: [isDragging],
    [didDrag] and the anchor go through the same values, and the calls are
    the same ones in the same order, a class on the body standing for the
    cursor. *)
Theorem settings_plugin_refines_first (ins : list Legacy.MouseInput) :
  forall s : State,
    mouseButton (settings s) = 2%Z ->
    modifierKey (settings s) = ModNone ->
    forallb unmodified ins = true ->
    gestureFields (fst (run (map toEvent ins) s))
    = fst (Legacy.run ins (gestureFields s)) /\
    map legacyCall (snd (run (map toEvent ins) s))
    = snd (Legacy.run ins (gestureFields s)).
Proof.
  induction ins as [|i ins IH]; intros s Hb Hm Hu; [split; reflexivity|].
  cbn [forallb] in Hu. apply andb_prop in Hu as [Hi Hu].
  cbn [map run Legacy.run].
  destruct (dispatch_refines_legacy i s Hb Hm Hi) as (Hst & Hcalls).
  pose proof (dispatch_mouse_settings i s) as Hset.
  destruct (dispatch (toEvent i) s) as [s1 c1].
  destruct (Legacy.dispatch i (gestureFields s)) as [t1 d1].
  cbn [fst snd] in *. subst t1 d1.
  destruct (IH s1 ltac:(rewrite Hset; exact Hb) ltac:(rewrite Hset; exact Hm) Hu)
    as (Hst2 & Hcalls2).
  destruct (run (map toEvent ins) s1) as [s2 c2].
  destruct (Legacy.run ins (gestureFields s1)) as [t2 d2].
  cbn [fst snd] in *. subst t2 d2.
  split; [reflexivity|]. apply map_app.
Qed.

Lemma settings_plugin_refines_first_witness :
  map legacyCall
      (snd (run (map toEvent [Legacy.Down (rightButtonAt 100) sourceView;
                              Legacy.Move (rightButtonAt 90) sourceView;
                              Legacy.Up (rightButtonAt 90);
                              Legacy.Menu (rightButtonAt 90)])
              (initial DEFAULT_SETTINGS)))
  = [Legacy.PreventDefault;
     Legacy.SetCursor "grabbing"; Legacy.ScrollBy 1%nat (- (90 - 100))%Q;
     Legacy.SetCursor "default";
     Legacy.PreventDefault; Legacy.StopImmediatePropagation].
Proof.
  destruct (settings_plugin_refines_first
              [Legacy.Down (rightButtonAt 100) sourceView;
               Legacy.Move (rightButtonAt 90) sourceView;
               Legacy.Up (rightButtonAt 90);
               Legacy.Menu (rightButtonAt 90)]
              (initial DEFAULT_SETTINGS) eq_refl eq_refl eq_refl) as (_ & Hcalls).
  rewrite Hcalls. reflexivity.
Defined.

(** ** Starting over *)

Lemma startInertiaScroll_handle (s : State) :
  frames_ok s ->
  pendingFrames (startInertiaScroll s) = [nextFrameId s] /\
  animationFrameId (startInertiaScroll s) = Some (nextFrameId s) /\
  nextFrameId (startInertiaScroll s) = (nextFrameId s + 1)%Z.
Proof.
  intros (Hn & Hz & Hp). unfold startInertiaScroll.
  destruct Hp as [Hp | (h & Hh & Hid & Hp)].
  - destruct (animationFrameId s) as [h|].
    + destruct (negb (h =? 0)%Z); unfold requestAnimationFrame; simpl;
        rewrite Hp; auto.
    + unfold requestAnimationFrame. simpl. rewrite Hp. auto.
  - rewrite Hid. destruct (Z.eqb_spec h 0) as [->|_]; [congruence|].
    unfold requestAnimationFrame. simpl.
    rewrite Hp, filter_self_removed. auto.
Qed.

(** X15.  Starting a run while one is active replaces it: after two
    [startInertiaScroll] in a row exactly one callback is scheduled, the
    second one, and the handle of the first no longer runs anything; and
    stopping twice is stopping once. *)
Theorem restart_replaces_run (s : State) :
  frames_ok s ->
  let s2 := startInertiaScroll (startInertiaScroll s) in
  pendingFrames s2 = [(nextFrameId s + 1)%Z] /\
  animationFrameId s2 = Some (nextFrameId s + 1)%Z /\
  (forall app : Workspace, fireFrame (nextFrameId s) app s2 = (s2, [])) /\
  stopInertiaScroll (stopInertiaScroll s2) = stopInertiaScroll s2 /\
  pendingFrames (stopInertiaScroll s2) = [].
Proof.
  intros Hok s2.
  destruct (startInertiaScroll_handle s Hok) as (_ & _ & Hn1).
  destruct (startInertiaScroll_running s Hok) as (Hok1 & _).
  destruct (startInertiaScroll_handle _ Hok1) as (Hp2 & Hid2 & _).
  destruct (startInertiaScroll_running _ Hok1) as (Hok2 & _).
  fold s2 in Hp2, Hid2, Hok2. rewrite Hn1 in Hp2, Hid2.
  split; [exact Hp2|]. split; [exact Hid2|]. split; [|split].
  - intros app. unfold fireFrame. rewrite Hp2. cbn [existsb].
    destruct (Z.eqb_spec (nextFrameId s) (nextFrameId s + 1)) as [E|_]; [lia|].
    reflexivity.
  - apply stopInertiaScroll_idempotent.
  - apply (stopInertiaScroll_stops s2 Hok2).
Qed.

Lemma restart_replaces_run_witness :
  pendingFrames
    (startInertiaScroll (startInertiaScroll (gliding DEFAULT_SETTINGS 5)))
  = [3%Z].
Proof.
  apply (restart_replaces_run (gliding DEFAULT_SETTINGS 5)).
  apply gliding_ok.
Defined.
